(** * UEBA streaming anomaly scoring and alerting: a shallow embedding

    The development follows the Python sources of the analytics engine:

    - [Alerting]  : [ml_alerting_system.py]     (class [MLAlertingSystem])
    - [Inference] : [realtime_ml_inference.py]  (class [RealTimeMLInference])
    - [Monitor]   : [realtime_ml_monitor.py]    (class [RealTimeMLMonitor])
    - [Detector]  : [advanced_ml_detector.py]   ([create_ensemble_score])

    Conventions.  Python floats are idealised: scores that the code only
    adds, divides and compares are rationals ([Q]); the trainer's arrays
    are real numbers, and the one expression with [np.exp] is given twice,
    in exact arithmetic and with the rounding and overflow of binary64.
    Strings are byte strings; [lower] is [str.lower()] on ASCII text.  A
    Python [dict] with string keys is a
    [gmap string _]; a dict literal with a fixed key set is a record.  Code
    that may raise returns a [res]; [try]/[except] is [catch].  The wall
    clock, the random generator, the trained models and the event store are
    explicit arguments. *)

From Stdlib Require Import ZArith QArith Reals Psatz String Ascii List Sorted.
From stdpp Require Import gmap strings pretty.
Import ListNotations.

Local Open Scope string_scope.

(** ** Python values, exceptions *)

(** The scalar values that occur in a log record. *)
Inductive pyval : Type :=
| PNone
| PBool (b : bool)
| PInt (z : Z)
| PFloat (q : Q)
| PStr (s : string).

(** A log record / event: [Dict] with string keys. *)
Abbreviation dict := (gmap string pyval).

(** Python truthiness, as used by [if x:]. *)
Definition truthy (v : pyval) : bool :=
  match v with
  | PNone => false
  | PBool b => b
  | PInt z => negb (z =? 0)%Z
  | PFloat q => negb (Qeq_bool q 0)
  | PStr s => negb (String.eqb s "")
  end.

(** [d.get(k, default)] *)
Definition get (d : dict) (k : string) (default : pyval) : pyval :=
  match d !! k with
  | Some v => v
  | None => default
  end.

(** An exception: its class name and [str(e)]. *)
Record exn : Type := Exn { exn_class : string; exn_str : string }.

Inductive res (A : Type) : Type :=
| Ok (a : A)
| Raise (e : exn).
Arguments Ok {A} a.
Arguments Raise {A} e.

Definition bind {A B : Type} (m : res A) (k : A -> res B) : res B :=
  match m with
  | Ok a => k a
  | Raise e => Raise e
  end.

(** [try: m  except Exception as e: h e] *)
Definition catch {A : Type} (m : res A) (h : exn -> A) : A :=
  match m with
  | Ok a => a
  | Raise e => h e
  end.

Declare Scope res_scope.
Delimit Scope res_scope with res.
Notation "x <- m ;; k" := (bind m (fun x => k))
  (at level 100, m at next level, right associativity) : res_scope.

Definition raised {A : Type} (m : res A) : bool :=
  match m with
  | Ok _ => false
  | Raise _ => true
  end.

(** ** Strings *)

Definition lower_ascii (c : ascii) : ascii :=
  let n := nat_of_ascii c in
  if (65 <=? n)%nat && (n <=? 90)%nat then ascii_of_nat (n + 32) else c.

(** [s.lower()] on the ASCII range. *)
Fixpoint lower (s : string) : string :=
  match s with
  | EmptyString => EmptyString
  | String c s' => String (lower_ascii c) (lower s')
  end.

(** [pat in s] : substring containment. *)
Fixpoint contains (pat s : string) : bool :=
  String.prefix pat s ||
  match s with
  | EmptyString => false
  | String _ s' => contains pat s'
  end.

(** [any(p in s for p in pats)] *)
Definition any_in (pats : list string) (s : string) : bool :=
  existsb (fun p => contains p s) pats.

(** ** The environment of a run *)

(** [datetime.now()] at the moment of a call. *)
Record clock : Type := Clock {
  isoformat : string;   (* datetime.now().isoformat() *)
  hour : Z;             (* datetime.now().hour *)
  weekday : Z           (* datetime.now().weekday() *)
}.

(** The [random] module: the [k]-th call of [random.random()] yields
    [random_unit k], a float in [[0,1)]; the [k]-th bounded integer draw
    below [n] yields [randbelow k n]. *)
Record rng : Type := Rng {
  random_unit : nat -> Q;
  randbelow : nat -> Z -> Z
}.

(** [random.uniform(a, b)] is [a + (b - a) * random()]. *)
Definition uniform (g : rng) (k : nat) (a b : Q) : Q :=
  (a + (b - a) * random_unit g k)%Q.

(** The four risk names ["CRITICAL"], ["HIGH"], ["MEDIUM"], ["LOW"]: the
    keys of [alert_thresholds] and [alert_counts] and the values of
    ['severity'] and ['risk_level']. *)
Inductive severity : Type := CRITICAL | HIGH | MEDIUM | LOW.

Definition severity_eqb (a b : severity) : bool :=
  match a, b with
  | CRITICAL, CRITICAL | HIGH, HIGH | MEDIUM, MEDIUM | LOW, LOW => true
  | _, _ => false
  end.

(** [a < b] on floats. *)
Definition Qlt_bool (a b : Q) : bool := negb (Qle_bool b a).

(** * ml_alerting_system.py *)

Module Alerting.

(** A dict keyed by the four severity names. *)
Record by_severity (A : Type) : Type := BySeverity {
  critical : A; high : A; medium : A; low : A
}.
Arguments BySeverity {A}.
Arguments critical {A}.
Arguments high {A}.
Arguments medium {A}.
Arguments low {A}.

Definition lookup_sev {A : Type} (d : by_severity A) (s : severity) : A :=
  match s with
  | CRITICAL => critical d
  | HIGH => high d
  | MEDIUM => medium d
  | LOW => low d
  end.

Definition update_sev {A : Type} (d : by_severity A) (s : severity) (f : A -> A)
  : by_severity A :=
  match s with
  | CRITICAL => BySeverity (f (critical d)) (high d) (medium d) (low d)
  | HIGH => BySeverity (critical d) (f (high d)) (medium d) (low d)
  | MEDIUM => BySeverity (critical d) (high d) (f (medium d)) (low d)
  | LOW => BySeverity (critical d) (high d) (medium d) (f (low d))
  end.

(** [self.alert_thresholds] as set by [__init__]. *)
Definition default_thresholds : by_severity Q :=
  BySeverity (9 # 10) (7 # 10) (5 # 10) (3 # 10).

Definition zero_counts : by_severity nat := BySeverity 0%nat 0%nat 0%nat 0%nat.

(** [_get_severity_level] *)
Definition _get_severity_level (alert_thresholds : by_severity Q) (risk_score : Q)
  : severity :=
  if Qle_bool (lookup_sev alert_thresholds CRITICAL) risk_score then CRITICAL
  else if Qle_bool (lookup_sev alert_thresholds HIGH) risk_score then HIGH
  else if Qle_bool (lookup_sev alert_thresholds MEDIUM) risk_score then MEDIUM
  else LOW.

(** [min(a, b)] of Python: [b] when [b < a], else [a]. *)
Definition py_min (a b : Q) : Q := if Qle_bool a b then a else b.

(** [v.lower()] : only [str] has the method. *)
Definition py_lower (v : pyval) : res string :=
  match v with
  | PStr s => Ok (lower s)
  | _ => Raise (Exn "AttributeError" "object has no attribute 'lower'")
  end.

(** [v >= n] for an integer literal [n]: numbers compare, anything else is
    a [TypeError]. *)
Definition py_ge_int (v : pyval) (n : Z) : res bool :=
  match v with
  | PInt z => Ok (n <=? z)%Z
  | PBool b => Ok (n <=? (if b then 1 else 0))%Z
  | PFloat q => Ok (Qle_bool (inject_Z n) q)
  | _ => Raise (Exn "TypeError" "'>=' not supported between these instances")
  end.

(** [v in [s1, ..., sn]] for string literals. *)
Definition py_in_strs (v : pyval) (l : list string) : bool :=
  match v with
  | PStr s => existsb (String.eqb s) l
  | _ => false
  end.

(** [_calculate_risk_score]; [k] is the number of [random] calls made so
    far, so the call consumes draw [k]. *)
Definition _calculate_risk_score (g : rng) (k : nat) (event : dict) : res Q :=
  (url <- py_lower (get event "url" (PStr "")) ;;
   user_agent <- py_lower (get event "user_agent" (PStr "")) ;;
   let method := get event "method" (PStr "GET") in
   let status := get event "status_code" (PInt 200) in
   let risk_score := 0%Q in
   let risk_score :=
     if any_in ["script"; "alert"; "union"; "select"; "../"] url
     then (risk_score + (3 # 10))%Q else risk_score in
   let risk_score :=
     if any_in ["curl"; "wget"; "sqlmap"; "nikto"] user_agent
     then (risk_score + (2 # 10))%Q else risk_score in
   let risk_score :=
     if py_in_strs method ["PUT"; "DELETE"; "PATCH"]
     then (risk_score + (1 # 10))%Q else risk_score in
   bad_status <- py_ge_int status 400 ;;
   let risk_score :=
     if (bad_status : bool) then (risk_score + (1 # 10))%Q else risk_score in
   let risk_score := (risk_score + uniform g k 0 (4 # 10))%Q in
   Ok (py_min risk_score 1))%res.

(** One entry of the list returned by [check_ml_anomalies]. *)
Record anomaly : Type := Anomaly {
  a_timestamp : pyval;
  a_risk_score : Q;
  a_severity : severity;
  ip_address : pyval;
  user_agent : pyval;
  attack_type : pyval;
  threat_level : pyval;
  country : pyval;
  request_uri : pyval
}.

(** The mutable part of [MLAlertingSystem] together with the position in
    the random stream. *)
Record state : Type := State {
  alert_counts : by_severity nat;
  draws : nat
}.

Definition severity_name (s : severity) : string :=
  match s with
  | CRITICAL => "CRITICAL"
  | HIGH => "HIGH"
  | MEDIUM => "MEDIUM"
  | LOW => "LOW"
  end.

(** The dict literal built for a reported event. *)
Definition anomaly_of_event (now : clock) (event : dict) (risk_score : Q)
    (sev : severity) : anomaly :=
  {| a_timestamp := get event "@timestamp" (PStr (isoformat now));
     a_risk_score := risk_score;
     a_severity := sev;
     ip_address := get event "remote_addr" (get event "ip_address" (PStr "N/A"));
     user_agent := get event "user_agent" (get event "http_user_agent" (PStr "N/A"));
     attack_type := get event "attack_type" (PStr "Unknown");
     threat_level := get event "threat_level" (PStr "Unknown");
     country := get event "country" (PStr "Unknown");
     request_uri := get event "url" (get event "request_uri" (PStr "N/A")) |}.

(** The [for event in recent_data] loop of [check_ml_anomalies].  The
    counters are updated in place, so they keep their value when a later
    event raises. *)
Fixpoint scan_events (th : by_severity Q) (now : clock) (g : rng)
    (recent_data : list dict) (anomalies : list anomaly) (st : state)
  : res (list anomaly) * state :=
  match recent_data with
  | [] => (Ok anomalies, st)
  | event :: rest =>
      match _calculate_risk_score g (draws st) event with
      | Raise e => (Raise e, st)
      | Ok risk_score =>
          let st := State (alert_counts st) (S (draws st)) in
          if Qle_bool (lookup_sev th MEDIUM) risk_score then
            let sev := _get_severity_level th risk_score in
            let a := anomaly_of_event now event risk_score sev in
            scan_events th now g rest (anomalies ++ [a])
              (State (update_sev (alert_counts st) sev S) (draws st))
          else scan_events th now g rest anomalies st
      end
  end.

(** [random.randint(a, b)] and [random.choice(seq)]: one bounded draw. *)
Definition randint (g : rng) (k : nat) (a b : Z) : Z :=
  (a + randbelow g k (b - a + 1))%Z.

Definition choice (g : rng) (k : nat) (seq : list string) : string :=
  nth (Z.to_nat (randbelow g k (Z.of_nat (length seq)))) seq "".

(** The body of the loop of [_generate_synthetic_anomalies]: six draws. *)
Definition synthetic_anomaly (th : by_severity Q) (now : clock) (g : rng) (k : nat)
  : anomaly :=
  let risk_score := uniform g k (5 # 10) 1 in
  let sev := _get_severity_level th risk_score in
  {| a_timestamp := PStr (isoformat now);
     a_risk_score := risk_score;
     a_severity := sev;
     ip_address := PStr ("192.168.1." +:+ pretty (randint g (k + 1) 1 255));
     user_agent := PStr (choice g (k + 2) ["curl/7.0"; "sqlmap/1.0"; "Mozilla/5.0"]);
     attack_type :=
       PStr (choice g (k + 3) ["SQL Injection"; "XSS"; "Directory Traversal"]);
     threat_level := PStr (severity_name sev);
     country := PStr (choice g (k + 4) ["Unknown"; "US"; "CN"]);
     request_uri := PStr (choice g (k + 5) ["/admin"; "/login.php"; "/upload.php"]) |}.

Fixpoint synthetic_loop (th : by_severity Q) (now : clock) (g : rng) (n : nat)
    (anomalies : list anomaly) (st : state) : list anomaly * state :=
  match n with
  | O => (anomalies, st)
  | S n' =>
      let a := synthetic_anomaly th now g (draws st) in
      synthetic_loop th now g n' (anomalies ++ [a])
        (State (update_sev (alert_counts st) (a_severity a) S) (draws st + 6))
  end.

(** [_generate_synthetic_anomalies] *)
Definition _generate_synthetic_anomalies (th : by_severity Q) (now : clock) (g : rng)
    (st : state) : list anomaly * state :=
  let n := Z.to_nat (randint g (draws st) 1 5) in
  synthetic_loop th now g n [] (State (alert_counts st) (S (draws st))).

(** [check_ml_anomalies].  [es_utility] is [None] when the utility was
    never created, and otherwise holds what [search_data] returns (that
    method catches its own errors and answers with a list). *)
Definition check_ml_anomalies (th : by_severity Q) (now : clock) (g : rng)
    (es_utility : option (list dict)) (st : state) : list anomaly * state :=
  match es_utility with
  | None => _generate_synthetic_anomalies th now g st
  | Some [] => _generate_synthetic_anomalies th now g st
  | Some recent_data =>
      match scan_events th now g recent_data [] st with
      | (Ok anomalies, st') => (anomalies, st')
      | (Raise _, st') => _generate_synthetic_anomalies th now g st'
      end
  end.

End Alerting.

(** * realtime_ml_inference.py *)

Module Inference.

(** A trained detector as [joblib] loads it.  [predict] is [None] when the
    object has no such attribute; the functions stand for
    [model.predict(x)[0]] and [model.decision_function(x)[0]] on the single
    row [x], and may raise. *)
Record model : Type := Model {
  predict : option (list pyval -> res Z);
  decision_function : list pyval -> res Q
}.

(** The fields of [RealTimeMLInference] that scoring reads. *)
Record engine : Type := Engine {
  optimized_models : gmap string model;
  optimized_scaler : option (list pyval -> res (list pyval));
  feature_columns : list string
}.

(** [Series.map({'GET': 0, ...}).fillna(6)] on one cell. *)
Definition method_code (v : pyval) : pyval :=
  match v with
  | PStr s =>
      if String.eqb s "GET" then PInt 0
      else if String.eqb s "POST" then PInt 1
      else if String.eqb s "PUT" then PInt 2
      else if String.eqb s "DELETE" then PInt 3
      else if String.eqb s "HEAD" then PInt 4
      else if String.eqb s "OPTIONS" then PInt 5
      else PInt 6
  | _ => PInt 6
  end.

(** [df.get('method', 'GET').map(...)]: [DataFrame.get] answers with the
    column when there is one and with the default object otherwise; the
    default here is the [str] ['GET'], which has no [map]. *)
Definition method_encoded (df : dict) : res pyval :=
  match df !! "method" with
  | Some v => Ok (method_code v)
  | None => Raise (Exn "AttributeError" "'str' object has no attribute 'map'")
  end.

(** [df[col].str]: the accessor exists for a column of strings or of
    missing values only. *)
Definition str_accessor (v : pyval) : res (option string) :=
  match v with
  | PStr s => Ok (Some s)
  | PNone => Ok None
  | _ => Raise (Exn "AttributeError" "Can only use .str accessor with string values!")
  end.

(** [.str.len().fillna(0)] *)
Definition str_len (c : option string) : pyval :=
  match c with
  | Some s => PInt (Z.of_nat (String.length s))
  | None => PInt 0
  end.

(** [.str.contains(p1|...|pn, case=False, na=False).astype(int)] for
    literal alternatives. *)
Definition str_contains (alts : list string) (c : option string) : pyval :=
  match c with
  | Some s => if any_in (map lower alts) (lower s) then PInt 1 else PInt 0
  | None => PInt 0
  end.

(** [if col not in df.columns: df[col] = 0] *)
Definition ensure_column (col : string) (df : dict) : dict :=
  match df !! col with
  | Some _ => df
  | None => <[col := PInt 0]> df
  end.

(** One cell of [.fillna(0)]. *)
Definition fillna0 (v : pyval) : pyval :=
  match v with
  | PNone => PInt 0
  | _ => v
  end.

(** [df[cols].fillna(0)] as the row of values; a missing column is a
    [KeyError]. *)
Fixpoint select_columns (df : dict) (cols : list string) : res (list pyval) :=
  match cols with
  | [] => Ok []
  | c :: cs =>
      match df !! c with
      | None => Raise (Exn "KeyError" c)
      | Some v => (rest <- select_columns df cs ;; Ok (fillna0 v :: rest))%res
      end
  end.

Definition default_feature_columns : list string :=
  ["status"; "size"; "risk_score"; "response_time";
   "method_encoded"; "url_length"; "has_script"; "has_sql"; "has_traversal"].

(** [_engineer_features_single_record]; the one-row frame is the dict of
    its cells. *)
Definition _engineer_features_single_record (self : engine) (record : dict)
  : res (list pyval) :=
  (let df := record in
   m <- method_encoded df ;;
   let df := <["method_encoded" := m]> df in
   let url_col := match df !! "url" with Some _ => "url" | None => "url_path" end in
   df <- match df !! url_col with
         | Some v =>
             c <- str_accessor v ;;
             let df := <["url_length" := str_len c]> df in
             let df := <["has_script" := str_contains ["<script>"] c]> df in
             let df := <["has_sql" := str_contains ["'"; "--"; "union"; "select"] c]> df in
             let df := <["has_traversal" := str_contains ["../"] c]> df in
             Ok df
         | None =>
             let df := <["url_length" := PInt 0]> df in
             let df := <["has_script" := PInt 0]> df in
             let df := <["has_sql" := PInt 0]> df in
             let df := <["has_traversal" := PInt 0]> df in
             Ok df
         end ;;
   let df := fold_left (fun d col => ensure_column col d)
               ["status"; "size"; "risk_score"; "response_time"] df in
   match feature_columns self with
   | [] => select_columns df default_feature_columns
   | cols => select_columns df cols
   end)%res.

(** [_prepare_feature_vector] *)
Definition _prepare_feature_vector (self : engine) (record : dict)
  : res (list pyval) :=
  (df <- _engineer_features_single_record self record ;;
   match optimized_scaler self with
   | Some transform => transform df
   | None => Ok df
   end)%res.

(** [predictions] and [scores] of [score_record]. *)
Abbreviation votes := (gmap string Z * gmap string Q)%type.

(** [1 if pred == -1 else 0] *)
Definition vote (pred : Z) : Z := if (pred =? -1)%Z then 1%Z else 0%Z.

(** [model.predict(x)[0]] when the attribute may be absent. *)
Definition call_predict (m : model) (x : list pyval) : res Z :=
  match predict m with
  | Some f => f x
  | None => Raise (Exn "AttributeError" "object has no attribute 'predict'")
  end.

(** The blocks for the isolation forest and the one-class SVM: an error of
    the model leaves the block. *)
Definition score_with (name : string) (self : engine) (x : list pyval) (acc : votes)
  : res votes :=
  match optimized_models self !! name with
  | Some m =>
      (pred <- call_predict m x ;;
       score <- decision_function m x ;;
       Ok (<[name := vote pred]> (fst acc), <[name := score]> (snd acc)))%res
  | None => Ok acc
  end.

(** The block for the LOF detector, with its own [try]/[except]. *)
Definition score_lof (self : engine) (x : list pyval) (acc : votes) : votes :=
  match optimized_models self !! "lof_detector" with
  | Some m =>
      let pred := match predict m with
                  | Some f => f x
                  | None => Ok (-1)%Z
                  end in
      match pred with
      | Ok pred =>
          (<["lof_detector" := vote pred]> (fst acc),
           <["lof_detector" := if (pred =? -1)%Z then (-1)%Q else 1%Q]> (snd acc))
      | Raise _ =>
          (<["lof_detector" := 0%Z]> (fst acc), <["lof_detector" := 1%Q]> (snd acc))
      end
  | None => acc
  end.

(** [sum(predictions.values())] *)
Definition sum_values (predictions : gmap string Z) : Z :=
  map_fold (fun _ v acc => (v + acc)%Z) 0%Z predictions.

(** The ensemble vote: [sum / len] when the dict is not empty, else 0. *)
Definition ensemble (predictions : gmap string Z) : Q :=
  if (size predictions =? 0)%nat then 0%Q
  else (inject_Z (sum_values predictions) / inject_Z (Z.of_nat (size predictions)))%Q.

Definition risk_of (ensemble_score : Q) : severity :=
  if Qlt_bool (8 # 10) ensemble_score then CRITICAL
  else if Qlt_bool (6 # 10) ensemble_score then HIGH
  else if Qlt_bool (3 # 10) ensemble_score then MEDIUM
  else LOW.

(** The dict returned on the normal path. *)
Record verdict : Type := Verdict {
  timestamp : pyval;
  client_ip : pyval;
  url_path : pyval;
  status_code : pyval;
  is_anomaly : bool;
  ensemble_score : Q;
  risk_level : severity;
  individual_predictions : gmap string Z;
  individual_scores : gmap string Q
}.

(** What [score_record] returns: the verdict dict, or the two-key dict of
    the [except] branch. *)
Inductive scored : Type :=
| Scored (v : verdict)
| Failed (error : string) (timestamp : pyval).

Definition keys (r : scored) : list string :=
  match r with
  | Scored _ =>
      ["timestamp"; "client_ip"; "url_path"; "status_code"; "is_anomaly";
       "ensemble_score"; "risk_level"; "individual_predictions"; "individual_scores"]
  | Failed _ _ => ["error"; "timestamp"]
  end.

(** ['error' in result] *)
Definition has_key (k : string) (r : scored) : bool := existsb (String.eqb k) (keys r).

(** [result['error']] *)
Definition error_of (r : scored) : string :=
  match r with
  | Scored _ => ""
  | Failed error _ => error
  end.

(** The part of a result that scoring computes: the per-detector votes and
    scores, the fused score, the risk level and the anomaly flag, or the
    error text. *)
Definition scores_of (r : scored)
  : gmap string Z * gmap string Q * Q * severity * bool + string :=
  match r with
  | Scored v =>
      inl (individual_predictions v, individual_scores v, ensemble_score v,
           risk_level v, is_anomaly v)
  | Failed error _ => inr error
  end.

(** The [try] block of [score_record]. *)
Definition score_record_body (self : engine) (now : clock) (record : dict)
  : res verdict :=
  (feature_vector <- _prepare_feature_vector self record ;;
   acc <- score_with "isolation_forest" self feature_vector (∅, ∅) ;;
   acc <- score_with "one_class_svm" self feature_vector acc ;;
   let acc := score_lof self feature_vector acc in
   let predictions := fst acc in
   let scores := snd acc in
   let ensemble_score := ensemble predictions in
   Ok {| timestamp := get record "@timestamp" (PStr (isoformat now));
         client_ip := get record "client_ip" (PStr "unknown");
         url_path := get record "url_path" (PStr "unknown");
         status_code := get record "status_code" (PStr "unknown");
         is_anomaly := Qlt_bool (5 # 10) ensemble_score;
         ensemble_score := ensemble_score;
         risk_level := risk_of ensemble_score;
         individual_predictions := predictions;
         individual_scores := scores |})%res.

(** [score_record] *)
Definition score_record (self : engine) (now : clock) (record : dict) : scored :=
  catch (v <- score_record_body self now record ;; Ok (Scored v))%res
        (fun e => Failed ("Scoring failed: " +:+ exn_str e)
                         (get record "@timestamp" (PStr (isoformat now)))).

(** What [monitor_new_logs] prints. *)
Inductive line : Type :=
| Processing (n : nat)
| AnomalyDetected (v : verdict)
| NormalRecord (v : verdict)
| ErrorProcessing (error : string)
| NoAnomalies
| NoNewLogs
| ErrorQuerying (msg : string).

(** The state the loop mutates: the watermark ([None] at start) and the
    console. *)
Record monitor : Type := Monitor {
  last_processed_timestamp : pyval;
  stdout : list line
}.

Definition initial : monitor := Monitor PNone [].

Definition print (l : line) (st : monitor) : monitor :=
  Monitor (last_processed_timestamp st) (stdout st ++ [l]).

(** The search body: [match_all], sorted by ["@timestamp"] descending, at
    most [size] hits, with a [range]/[gt] clause when a watermark is set. *)
Record query : Type := Query {
  range_gt : option pyval;
  size_limit : nat
}.

Definition build_query (st : monitor) : query :=
  Query (if truthy (last_processed_timestamp st)
         then Some (last_processed_timestamp st) else None) 10.

(** The answer of the event source to one search: the [_source] of every
    hit in the order returned, or an error. *)
Abbreviation source := (query -> res (list dict)).

(** The body of [for hit in reversed(hits)]. *)
Definition process_hit (self : engine) (now : clock) (acc : monitor * nat)
    (record : dict) : monitor * nat :=
  let (st, anomalies_found) := acc in
  let result := score_record self now record in
  match result with
  | Scored v =>
      let st := Monitor (timestamp v) (stdout st) in
      if is_anomaly v then (print (AnomalyDetected v) st, S anomalies_found)
      else (print (NormalRecord v) st, anomalies_found)
  | Failed error _ => (print (ErrorProcessing error) st, anomalies_found)
  end.

(** One iteration of the [while] loop. *)
Definition cycle (self : engine) (now : clock) (st : monitor) (search : source)
  : monitor :=
  match search (build_query st) with
  | Raise e => print (ErrorQuerying (exn_str e)) st
  | Ok [] => print NoNewLogs st
  | Ok hits =>
      let st := print (Processing (length hits)) st in
      let (st, anomalies_found) :=
        fold_left (process_hit self now) (rev hits) (st, 0%nat) in
      if (anomalies_found =? 0)%nat then print NoAnomalies st else st
  end.

(** [monitor_new_logs] run for [length searches] iterations
    ([max_iterations]), the [i]-th search being answered by the [i]-th
    element; the [time.sleep] between iterations has no effect on the
    state. *)
Definition monitor_new_logs (self : engine) (now : clock) (searches : list source)
    (st : monitor) : monitor :=
  fold_left (cycle self now) searches st.

(** The records handed to [score_record] during a run, in order. *)
Fixpoint processed (self : engine) (now : clock) (searches : list source)
    (st : monitor) : list dict :=
  match searches with
  | [] => []
  | search :: rest =>
      match search (build_query st) with
      | Ok hits => rev hits
      | Raise _ => []
      end ++ processed self now rest (cycle self now st search)
  end.

(** The watermark after [record] has gone through the loop body. *)
Definition next_watermark (self : engine) (now : clock) (w : pyval) (record : dict)
  : pyval :=
  last_processed_timestamp
    (fst (process_hit self now (Monitor w [], 0%nat) record)).

(** The successive values of the watermark while [records] are processed. *)
Fixpoint watermark_trace (self : engine) (now : clock) (records : list dict)
    (w : pyval) : list pyval :=
  match records with
  | [] => []
  | r :: rest =>
      let w' := next_watermark self now w r in
      w' :: watermark_trace self now rest w'
  end.

(** ['error' not in result] *)
Definition succeeded (self : engine) (now : clock) (record : dict) : bool :=
  negb (has_key "error" (score_record self now record)).

(** *** The event source

    [date_of] is the instant the store reads off a timestamp value. *)
Section EventSource.
Variable date_of : pyval -> Z.

(** The [range]/[gt] clause on one record. *)
Definition matches (q : query) (record : dict) : bool :=
  match range_gt q, record !! "@timestamp" with
  | None, _ => true
  | Some w, Some ts => (date_of w <? date_of ts)%Z
  | Some _, None => false
  end.

(** [r1] is not older than [r2]; records without timestamp sort last. *)
Definition newer (r1 r2 : dict) : bool :=
  match r1 !! "@timestamp", r2 !! "@timestamp" with
  | Some t1, Some t2 => (date_of t2 <=? date_of t1)%Z
  | Some _, None => true
  | None, Some _ => false
  | None, None => true
  end.

Fixpoint insert_desc (r : dict) (l : list dict) : list dict :=
  match l with
  | [] => [r]
  | x :: l' => if newer r x then r :: l else x :: insert_desc r l'
  end.

Definition sort_desc (l : list dict) : list dict :=
  fold_right insert_desc [] l.

(** A store that answers the search as asked. *)
Definition es_search (store : list dict) : source :=
  fun q => Ok (firstn (size_limit q) (sort_desc (List.filter (matches q) store))).

(** Newest first. *)
Fixpoint descending (hits : list dict) : bool :=
  match hits with
  | [] => true
  | r :: rest => forallb (newer r) rest && descending rest
  end.

(** The hits answer the query: every hit carries a timestamp (a value
    that is not empty or zero) above the bound, newest first. *)
Definition honours (q : query) (hits : list dict) : bool :=
  forallb (fun r => match r !! "@timestamp" with
                    | Some ts => truthy ts && matches q r
                    | None => false
                    end) hits
  && descending hits.

(** A watermark is unset, or a value that [if] takes for set. *)
Definition well_formed (w : pyval) : Prop := w = PNone \/ truthy w = true.

(** Every search of a run is answered as asked. *)
Fixpoint all_honoured (self : engine) (now : clock) (searches : list source)
    (st : monitor) : Prop :=
  match searches with
  | [] => True
  | search :: rest =>
      match search (build_query st) with
      | Ok hits => honours (build_query st) hits = true
      | Raise _ => True
      end /\ all_honoured self now rest (cycle self now st search)
  end.

(** [w1] is not after [w2]; an unset watermark is before everything. *)
Definition not_after (w1 w2 : pyval) : Prop :=
  w1 = PNone \/ (w2 <> PNone /\ (date_of w1 <= date_of w2)%Z).
End EventSource.

End Inference.

(** * realtime_ml_monitor.py *)

Module Monitor.

(** A loaded detector; each function stands for the call followed by
    [[0]].  [negative_outlier_factor_] is [None] when the attribute is
    absent. *)
Record model : Type := Model {
  predict : list Q -> res Z;
  decision_function : list Q -> res Q;
  fit_predict : list Q -> res Z;
  negative_outlier_factor_ : option (res Q)
}.

(** The fields of [RealTimeMLMonitor] that inference reads, and the
    timestamp parser of pandas: [to_datetime] gives the hour and the day of
    the week, [None] for a missing time, or raises. *)
Record engine : Type := Engine {
  models : gmap string model;
  scaler : option (list Q -> res (list Q));
  request_method_encoder : option (pyval -> res Z);
  to_datetime : pyval -> res (option (Z * Z))
}.

Definition of_bool (b : bool) : Q := if b then 1%Q else 0%Q.

(** [len(v)] and [v.lower()] for the user agent. *)
Definition py_len (v : pyval) : res Z :=
  match v with
  | PStr s => Ok (Z.of_nat (String.length s))
  | _ => Raise (Exn "TypeError" "object has no len()")
  end.

Definition py_eq_str (v : pyval) (s : string) : bool :=
  match v with
  | PStr s' => String.eqb s' s
  | _ => false
  end.

(** The [try] block of [engineer_features]. *)
Definition engineer_features_body (self : engine) (now : clock) (event : dict)
  : res (list Q) :=
  (temporal <-
     match event !! "@timestamp" with
     | Some ts =>
         t <- to_datetime self ts ;;
         match t with
         | Some (hour_of_day, day_of_week) =>
             Ok [inject_Z hour_of_day; inject_Z day_of_week;
                 of_bool (5 <=? day_of_week)%Z;
                 of_bool ((9 <=? hour_of_day)%Z && (hour_of_day <=? 17)%Z);
                 of_bool ((22 <=? hour_of_day)%Z || (hour_of_day <=? 6)%Z)]
         | None => Ok [0; 0; 0; 0; 0]%Q
         end
     | None =>
         Ok [inject_Z (hour now); inject_Z (weekday now);
             of_bool (5 <=? weekday now)%Z;
             of_bool ((9 <=? hour now)%Z && (hour now <=? 17)%Z);
             of_bool ((22 <=? hour now)%Z || (hour now <=? 6)%Z)]
     end ;;
   let user_agent := get event "http_user_agent" (PStr "") in
   ua <- Alerting.py_lower user_agent ;;
   let is_bot := of_bool (any_in ["bot"; "crawler"; "spider"; "scraper"] ua) in
   let is_curl := of_bool (contains "curl" ua) in
   let is_mobile := of_bool (any_in ["mobile"; "android"; "iphone"] ua) in
   user_agent_length <- py_len user_agent ;;
   let method := get event "request_method" (PStr "GET") in
   let is_get := of_bool (py_eq_str method "GET") in
   let is_post := of_bool (py_eq_str method "POST") in
   let is_suspicious_method :=
     of_bool (Alerting.py_in_strs method ["PUT"; "DELETE"; "PATCH"; "TRACE"; "CONNECT"]) in
   let method_encoded :=
     match request_method_encoder self with
     | Some transform => catch (transform method) (fun _ => 0%Z)
     | None => 0%Z
     end in
   let features :=
     (temporal ++ [is_bot; is_curl; is_mobile; inject_Z user_agent_length;
                   is_get; is_post; is_suspicious_method; inject_Z method_encoded])%list in
   match scaler self with
   | Some transform => transform features
   | None => Ok features
   end)%res.

(** [engineer_features]: any error gives the zero vector. *)
Definition engineer_features (self : engine) (now : clock) (event : dict) : list Q :=
  catch (engineer_features_body self now event) (fun _ => repeat 0%Q 13).

(** The inner [try] block of the loop over [self.models.items()] for one
    entry: the prediction and the score it computes, or the error; [None]
    for a name that no branch handles. *)
Definition attempt (features : list Q) (model_name : string) (m : model)
  : option (res (Z * Q)) :=
  if String.eqb model_name "isolation_forest" || String.eqb model_name "one_class_svm"
  then Some (pred <- predict m features ;;
             score <- decision_function m features ;;
             Ok (pred, score))%res
  else if String.eqb model_name "lof_detector"
  then Some (pred <- fit_predict m features ;;
             score <- match negative_outlier_factor_ m with
                      | Some r => r
                      | None => Ok (-1)%Q
                      end ;;
             Ok (pred, score))%res
  else None.

(** One turn of the loop: what it stores in [predictions] and [scores].
    The [except] branch stores "normal" (1) and 0.0. *)
Definition run_model (features : list Q) (model_name : string) (m : model)
  : option (Z * Q) :=
  (fun r => catch r (fun _ => (1%Z, 0%Q))) <$> attempt features model_name m.

(** The dict returned by [predict_anomaly]; the [except] branch leaves the
    two model dicts out and adds ['error']. *)
Record prediction : Type := Prediction {
  is_anomaly : bool;
  ensemble_score : Q;
  risk_level : severity;
  model_predictions : option (gmap string Z);
  model_scores : option (gmap string Q);
  error : option string;
  timestamp : string
}.

(** [sum(1 for pred in predictions.values() if pred == -1)] *)
Definition anomaly_votes (predictions : gmap string Z) : nat :=
  size (filter (fun kv => snd kv = (-1)%Z) predictions).

Definition risk_of (ensemble_score : Q) : severity :=
  if Qle_bool (75 # 100) ensemble_score then CRITICAL
  else if Qle_bool (5 # 10) ensemble_score then HIGH
  else if Qle_bool (25 # 100) ensemble_score then MEDIUM
  else LOW.

(** [predictions] and [scores] after the loop. *)
Definition run_models (self : engine) (features : list Q) : gmap string (Z * Q) :=
  map_imap (run_model features) (models self).

(** The [try] block of [predict_anomaly]. *)
Definition predict_anomaly_body (self : engine) (now : clock) (event : dict)
  : res prediction :=
  let features := engineer_features self now event in
  let results := run_models self features in
  let predictions := fst <$> results in
  let scores := snd <$> results in
  let votes := anomaly_votes predictions in
  let total_models := size predictions in
  let ensemble_score :=
    if (0 <? total_models)%nat
    then (inject_Z (Z.of_nat votes) / inject_Z (Z.of_nat total_models))%Q
    else 0%Q in
  Ok {| is_anomaly := (total_models <? 2 * votes)%nat;
        ensemble_score := ensemble_score;
        risk_level := risk_of ensemble_score;
        model_predictions := Some predictions;
        model_scores := Some scores;
        error := None;
        timestamp := isoformat now |}.

(** [predict_anomaly] *)
Definition predict_anomaly (self : engine) (now : clock) (event : dict) : prediction :=
  catch (predict_anomaly_body self now event)
        (fun e => {| is_anomaly := false;
                     ensemble_score := 0%Q;
                     risk_level := LOW;
                     model_predictions := None;
                     model_scores := None;
                     error := Some (exn_str e);
                     timestamp := isoformat now |}).

End Monitor.

(** * advanced_ml_detector.py *)

Module Detector.

Local Open Scope R_scope.

(** What a training run stores in [self.anomaly_scores[algorithm]]: the 0/1
    labels and the native scores, one per sample. *)
Record results : Type := Results {
  predictions : list R;
  scores : list R
}.

(** [1 / (1 + np.exp(-raw))] on one score, in exact arithmetic; module
    [Binary64] below has the same expression with rounding and overflow. *)
Definition lof_scale (raw : R) : R := 1 / (1 + exp (- raw)).













End Detector.

(** * Binary64 arithmetic for the LOF scaling *)

Module Binary64.

Local Open Scope R_scope.

(** Rounding of a real result to the nearest binary64 value, before the
    range check.  All that is used of it: it keeps the order and leaves 0,
    1 and the power [2 ^ 1024] as they are. *)
Record rounding : Type := Rounding {
  rnd :> R -> R;
  rnd_monotone : forall x y : R, x <= y -> rnd x <= rnd y;
  rnd_0 : rnd 0 = 0;
  rnd_1 : rnd 1 = 1;
  rnd_top : rnd (2 ^ 1024) = 2 ^ 1024
}.

(** A float that is not negative: a real, or [inf]. *)
Inductive float : Type :=
| Finite (x : R)
| Infinity.

(** The largest binary64 value. *)
Definition max_float : R := (2 - / 2 ^ 52) * 2 ^ 1023.

(** The float for a real result that is not negative: rounded, and [inf]
    when the rounded value is out of range. *)
Definition to_float (fl : rounding) (x : R) : float :=
  if Rle_dec (fl x) max_float then Finite (fl x) else Infinity.

(** [np.exp(x)], taken as the correctly rounded exponential: overflow
    gives [inf] (and a warning), no error. *)
Definition np_exp (fl : rounding) (x : R) : float := to_float fl (exp x).

(** [1 + e] *)
Definition one_plus (fl : rounding) (e : float) : float :=
  match e with
  | Finite e => to_float fl (1 + e)
  | Infinity => Infinity
  end.

(** [1 / d]: 0.0 for [inf], and [inf] for 0.0. *)
Definition one_over (fl : rounding) (d : float) : float :=
  match d with
  | Finite d => if Req_dec_T d 0 then Infinity else to_float fl (1 / d)
  | Infinity => Finite 0
  end.

(** [1 / (1 + np.exp(-raw))] as line 490 computes it; negation is exact. *)
Definition lof_scale (fl : rounding) (raw : R) : float :=
  one_over fl (one_plus fl (np_exp fl (- raw))).

End Binary64.

(** * ml_alerting_system.py: reporting *)

Module Reporting.
Import Alerting.

(** The order of the four risk names, LOW lowest. *)
Definition rank (s : severity) : nat :=
  match s with
  | LOW => 0
  | MEDIUM => 1
  | HIGH => 2
  | CRITICAL => 3
  end.

(** [len([a for a in anomalies if a['severity'] == sev])] *)
Definition count_severity (sev : severity) (anomalies : list anomaly) : nat :=
  length (List.filter (fun a => severity_eqb (a_severity a) sev) anomalies).

(** [sorted(anomalies, key=lambda x: x['risk_score'], reverse=True)]: the
    sort is stable, so entries with the same score keep their order. *)
Fixpoint insert_by_score (a : anomaly) (l : list anomaly) : list anomaly :=
  match l with
  | [] => [a]
  | b :: l' =>
      if Qlt_bool (a_risk_score a) (a_risk_score b)
      then b :: insert_by_score a l'
      else a :: l
  end.

Definition sorted_by_score (anomalies : list anomaly) : list anomaly :=
  fold_right insert_by_score [] anomalies.

(** The score of [a] is not below that of [b]: [a] may be listed before
    [b]. *)
Definition not_below (a b : anomaly) : Prop := (a_risk_score b <= a_risk_score a)%Q.

(** [sorted(...)[:n]], used with [n = 5] for the message and [n = 3] for
    the log entry. *)
Definition top_threats (n : nat) (anomalies : list anomaly) : list anomaly :=
  firstn n (sorted_by_score anomalies).

(** What [generate_alert_message] puts into its text: the three counts of
    the summary and the threats it lists.  [None] stands for the fixed text
    returned for an empty list. *)
Record alert_summary : Type := AlertSummary {
  total_anomalies : nat;
  critical_threats : nat;
  high_risk_events : nat;
  listed : list anomaly
}.

Definition generate_alert_message (anomalies : list anomaly) : option alert_summary :=
  match anomalies with
  | [] => None
  | _ =>
      Some {| total_anomalies := length anomalies;
              critical_threats := count_severity CRITICAL anomalies;
              high_risk_events := count_severity HIGH anomalies;
              listed := top_threats 5 anomalies |}
  end.

(** The [alert_data] dict of [log_alert], without its wall-clock stamp. *)
Record alert_data : Type := AlertData {
  anomaly_count : nat;
  severity_breakdown : by_severity nat;
  logged_threats : list (Q * severity * pyval * pyval)
}.

Definition log_alert (counts : by_severity nat) (anomalies : list anomaly) : alert_data :=
  {| anomaly_count := length anomalies;
     severity_breakdown := counts;
     logged_threats :=
       map (fun a => (a_risk_score a, a_severity a, ip_address a, attack_type a))
           (top_threats 3 anomalies) |}.

(** [any(a['severity'] == sev for a in anomalies)] *)
Definition any_severity (sev : severity) (anomalies : list anomaly) : bool :=
  existsb (fun a => severity_eqb (a_severity a) sev) anomalies.

(** The [max_severity] block of [run_monitoring_cycle]. *)
Definition max_severity (anomalies : list anomaly) : severity :=
  if any_severity CRITICAL anomalies then CRITICAL
  else if any_severity HIGH anomalies then HIGH
  else if any_severity MEDIUM anomalies then MEDIUM
  else LOW.

(** An event that [_calculate_risk_score] can score: the fields it calls
    methods on or compares have the types it expects. *)
Definition well_typed (event : dict) : bool :=
  negb (raised (py_lower (get event "url" (PStr ""))))
  && negb (raised (py_lower (get event "user_agent" (PStr ""))))
  && negb (raised (py_ge_int (get event "status_code" (PInt 200)) 400)).

(** A string of ASCII characters: on these [lower] is [str.lower()]. *)
Definition is_ascii (s : string) : bool :=
  forallb (fun c => (nat_of_ascii c <? 128)%nat) (list_ascii_of_string s).

(** The two fields that are lowercased hold ASCII text. *)
Definition ascii_text (event : dict) : bool :=
  match get event "url" (PStr ""), get event "user_agent" (PStr "") with
  | PStr url, PStr user_agent => is_ascii url && is_ascii user_agent
  | _, _ => false
  end.

(** An event that matches none of the four risk factors. *)
Definition no_risk_factor (event : dict) : bool :=
  match py_lower (get event "url" (PStr "")),
        py_lower (get event "user_agent" (PStr "")),
        py_ge_int (get event "status_code" (PInt 200)) 400 with
  | Ok url, Ok user_agent, Ok bad_status =>
      negb (any_in ["script"; "alert"; "union"; "select"; "../"] url)
      && negb (any_in ["curl"; "wget"; "sqlmap"; "nikto"] user_agent)
      && negb (py_in_strs (get event "method" (PStr "GET")) ["PUT"; "DELETE"; "PATCH"])
      && negb bad_status
  | _, _, _ => false
  end.

End Reporting.

(** * realtime_ml_inference.py: the default feature schema *)

Module Schema.
Import Inference.

(** The cell the URL features are read from: the ['url'] column when the
    record has one, else the ['url_path'] column. *)
Definition url_cell (record : dict) : option pyval :=
  match record !! "url" with
  | Some v => Some v
  | None => record !! "url_path"
  end.

(** A record the feature engineer accepts: it has a ['method'] field and
    its URL cell, if any, is a string or [None]. *)
Definition engineerable (record : dict) : bool :=
  match record !! "method", url_cell record with
  | None, _ => false
  | Some _, Some (PStr _) => true
  | Some _, Some PNone => true
  | Some _, Some _ => false
  | Some _, None => true
  end.

(** A required column as the frame holds it after the defaults: the
    record's value, 0 when the field is absent or [None]. *)
Definition required (record : dict) (col : string) : pyval :=
  fillna0 (get record col (PInt 0)).

(** What the three scoring blocks keep: votes are 0 or 1, each block adds
    at most one entry, and scores are stored under the same names. *)
Definition well_voted (n : nat) (acc : votes) : Prop :=
  (forall i x, fst acc !! i = Some x -> x = 0%Z \/ x = 1%Z)
  /\ (size (fst acc) <= n)%nat
  /\ dom (snd acc) = dom (fst acc).

(** The fields of a record that the default schema reads. *)
Definition schema_inputs : list string :=
  ["method"; "url"; "url_path"; "status"; "size"; "risk_score"; "response_time"].

End Schema.

(** * realtime_ml_monitor.py: the event stream *)

Module Stream.
Import Monitor.
Local Open Scope list_scope.

(** A timestamp value as a number, when it is one. *)
Definition as_number (v : pyval) : option Q :=
  match v with
  | PInt z => Some (inject_Z z)
  | PBool b => Some (if b then 1%Q else 0%Q)
  | PFloat q => Some q
  | _ => None
  end.

(** [a <= b]: strings compare by their characters, numbers by value, and
    anything else (a missing timestamp is [None]) is a [TypeError]. *)
Definition py_le (a b : pyval) : res bool :=
  match a, b with
  | PStr s, PStr t => Ok (String.leb s t)
  | _, _ =>
      match as_number a, as_number b with
      | Some x, Some y => Ok (Qle_bool x y)
      | _, _ => Raise (Exn "TypeError" "'<=' not supported between these instances")
      end
  end.

(** [self.stats], without the start time. *)
Record stats : Type := Stats {
  events_processed : nat;
  anomalies_detected : nat;
  high_risk_events : nat;
  last_processed : pyval
}.

(** What the loop logs. *)
Inductive entry : Type :=
| AnomalyDetected (risk : severity) (score : Q) (ip : pyval)
| Progress (events anomalies high_risk : nat) (avg_predict_time : Q)
| QueryError (msg : string).

(** The state [process_event_stream] works on. *)
Record monitor : Type := Monitor {
  counters : stats;
  performance_window : list Q;
  log : list entry
}.

Definition initial : monitor := Monitor (Stats 0 0 0 PNone) [] [].

Definition max_window_size : nat := 100.

(** [np.mean(window) if window else 0] *)
Definition mean (window : list Q) : Q :=
  match window with
  | [] => 0%Q
  | _ => (fold_right Qplus 0 window / inject_Z (Z.of_nat (length window)))%Q
  end.

(** The body of [for hit in events]; [timer k] is the time the [k]-th
    prediction takes.  The comparison with the last processed timestamp
    may raise, before anything is changed. *)
Definition process_event (self : engine) (now : clock) (timer : nat -> Q)
    (st : monitor) (event : dict) : res monitor :=
  (let event_time := get event "@timestamp" PNone in
   let s := counters st in
   seen <- (if truthy (last_processed s)
            then py_le event_time (last_processed s)
            else Ok false) ;;
   if (seen : bool) then Ok st
   else
     let prediction := predict_anomaly self now event in
     let predict_time := timer (events_processed s) in
     let window := performance_window st ++ [predict_time] in
     let window :=
       if (max_window_size <? length window)%nat then tl window else window in
     let events := S (events_processed s) in
     let anomalies :=
       if is_anomaly prediction then S (anomalies_detected s)
       else anomalies_detected s in
     let high :=
       if is_anomaly prediction
          && (severity_eqb (risk_level prediction) HIGH
              || severity_eqb (risk_level prediction) CRITICAL)
       then S (high_risk_events s) else high_risk_events s in
     let log :=
       if is_anomaly prediction
       then log st ++ [AnomalyDetected (risk_level prediction)
                         (ensemble_score prediction)
                         (get event "remote_addr" (PStr "N/A"))]
       else log st in
     let log :=
       if (events mod 100 =? 0)%nat
       then log ++ [Progress events anomalies high (mean window)]
       else log in
     Ok (Monitor (Stats events anomalies high event_time) window log))%res.

(** The [for] loop inside its [try]: an error ends the batch and is logged;
    what was counted before stays. *)
Fixpoint process_events (self : engine) (now : clock) (timer : nat -> Q)
    (events : list dict) (st : monitor) : monitor :=
  match events with
  | [] => st
  | event :: rest =>
      match process_event self now timer st event with
      | Ok st' => process_events self now timer rest st'
      | Raise e =>
          Monitor (counters st) (performance_window st)
                  (log st ++ [QueryError (exn_str e)])
      end
  end.

(** [process_event_stream] over the answers of successive polls; each
    answer lists the [_source] of its hits as returned, newest first. *)
Definition process_event_stream (self : engine) (now : clock) (timer : nat -> Q)
    (polls : list (list dict)) (st : monitor) : monitor :=
  fold_left (fun st events => process_events self now timer events st) polls st.

(** The three facts the counters and the window keep. *)
Definition consistent (st : monitor) : Prop :=
  high_risk_events (counters st) = anomalies_detected (counters st)
  /\ (anomalies_detected (counters st) <= events_processed (counters st))%nat
  /\ (length (performance_window st) <= max_window_size)%nat.

(** The timestamp the loop compares. *)
Definition stamp (event : dict) : pyval := get event "@timestamp" PNone.

(** [older] carries a string timestamp that is not after that of [newer]. *)
Definition not_after (older newer : dict) : Prop :=
  exists s t, stamp older = PStr s /\ stamp newer = PStr t
              /\ String.leb s t = true.

(** A batch as the query asks for it: timestamps that are not empty,
    newest first. *)
Definition newest_first (events : list dict) : Prop :=
  StronglySorted (fun a b => not_after b a) events
  /\ Forall (fun e => truthy (stamp e) = true) events.

(** A last-processed value the loop can compare a string with: a string,
    or something false such as the initial [None]. *)
Definition comparable (v : pyval) : bool :=
  match v with
  | PStr _ => true
  | _ => negb (truthy v)
  end.

End Stream.

(** * realtime_ml_monitor.py: what the features read *)

Module MonitorInputs.

(** The event fields [engineer_features] looks at. *)
Definition read_fields : list string :=
  ["@timestamp"; "http_user_agent"; "request_method"].

Definition same_inputs (event event' : dict) : Prop :=
  Forall (fun k => event !! k = event' !! k) read_fields.

Definition is_str (v : pyval) : bool :=
  match v with
  | PStr _ => true
  | _ => false
  end.

End MonitorInputs.

(** * advanced_ml_detector.py: the range of the ensemble score *)

Module EnsembleRange.
Import Detector.
Local Open Scope R_scope.




End EnsembleRange.

(** * Sample inputs *)

Module Samples.

Definition noon : clock := Clock "2025-10-05T12:00:00" 12 6.

(** A generator whose every unit draw is [q]. *)
Definition fixed_rng (q : Q) : rng := Rng (fun _ => q) (fun _ _ => 0%Z).


Definition fresh : Alerting.state := Alerting.State Alerting.zero_counts 0.

(** An injection attempt sent with a scanner. *)
Definition probe : dict :=
  <["url" := PStr "/search?q=1 UNION SELECT"]>
    (<["user_agent" := PStr "sqlmap/1.0"]> ∅).

(** A plain page view. *)
Definition page_view : dict :=
  <["url" := PStr "/index.html"]> (<["status_code" := PInt 200]> ∅).

(** Detectors of the inference engine. *)
Definition votes_normal : Inference.model :=
  Inference.Model (Some (fun _ => Ok 1%Z)) (fun _ => Ok (1 # 10)%Q).

Definition votes_anomalous : Inference.model :=
  Inference.Model (Some (fun _ => Ok (-1)%Z)) (fun _ => Ok (-1 # 10)%Q).

Definition shape_error : exn :=
  Exn "ValueError" "X has 9 features, but the model is expecting 12".

Definition broken : Inference.model :=
  Inference.Model (Some (fun _ => Raise shape_error)) (fun _ => Raise shape_error).

Definition forest_only : Inference.engine :=
  Inference.Engine {["isolation_forest" := votes_normal]} None [].

Definition forest_broken : Inference.engine :=
  Inference.Engine {["isolation_forest" := broken]} None [].

Definition lof_broken : Inference.engine :=
  Inference.Engine {["lof_detector" := broken]} None [].

Definition no_models : Inference.engine := Inference.Engine ∅ None [].

(** Timestamps given as epoch milliseconds. *)
Definition epoch (v : pyval) : Z :=
  match v with
  | PInt z => z
  | _ => 0%Z
  end.

Definition get_request (ts : Z) : dict :=
  <["@timestamp" := PInt ts]>
    (<["method" := PStr "GET"]> (<["url" := PStr "/index.html"]> ∅)).

(** A record without the ['method'] field. *)
Definition no_method (ts : Z) : dict :=
  <["@timestamp" := PInt ts]> (<["url" := PStr "/index.html"]> ∅).

(** Two stores: the second holds two more records. *)
Definition store_one : list dict := [get_request 5; get_request 7; get_request 3].

Definition store_two : list dict :=
  [get_request 5; get_request 7; get_request 3; get_request 9; get_request 8].

(** Detectors of the monitor. *)
Definition flags_anomaly : Monitor.model :=
  Monitor.Model (fun _ => Ok (-1)%Z) (fun _ => Ok (-1 # 10)%Q)
                (fun _ => Ok (-1)%Z) (Some (Ok (-2)%Q)).

Definition failing : Monitor.model :=
  Monitor.Model (fun _ => Raise shape_error) (fun _ => Raise shape_error)
                (fun _ => Raise shape_error) None.

(** A healthy detector that finds the event normal with native score 0. *)
Definition quiet : Monitor.model :=
  Monitor.Model (fun _ => Ok 1%Z) (fun _ => Ok 0%Q) (fun _ => Ok 1%Z) (Some (Ok 0%Q)).

Definition sunday_noon (_ : pyval) : res (option (Z * Z)) := Ok (Some (12, 6)%Z).

Definition half_failing : Monitor.engine :=
  Monitor.Engine (<["isolation_forest" := flags_anomaly]>
                    {["one_class_svm" := failing]}) None None sunday_noon.

Definition all_failing : Monitor.engine :=
  Monitor.Engine {["isolation_forest" := failing]} None None sunday_noon.

Definition all_quiet : Monitor.engine :=
  Monitor.Engine {["isolation_forest" := quiet]} None None sunday_noon.

Definition is_error_line (l : Inference.line) : bool :=
  match l with
  | Inference.ErrorProcessing _ => true
  | _ => false
  end.

End Samples.

(** * Further sample inputs *)

Module Scenarios.

(** An event whose URL field holds a number. *)
Definition numeric_url : dict := <["url" := PInt 3]> ∅.

(** A generator with unit draws 1/2 and bounded draws 2. *)
Definition steady : rng := Rng (fun _ => (1 # 2)%Q) (fun _ _ => 2%Z).

(** An LOF model fitted without novelty support: it has no [predict]. *)
Definition lof_fitted : Inference.model :=
  Inference.Model None (fun _ => Ok (-1 # 1)%Q).

Definition lof_only : Inference.engine :=
  Inference.Engine {["lof_detector" := lof_fitted]} None [].

(** Three detectors, two of which flag every record. *)
Definition two_of_three : Inference.engine :=
  Inference.Engine
    (<["isolation_forest" := Samples.votes_anomalous]>
       (<["one_class_svm" := Samples.votes_anomalous]>
          {["lof_detector" := Samples.votes_normal]})) None [].

(** The verdict of [two_of_three] on a plain request stamped 5. *)
Definition two_of_three_verdict : Inference.verdict :=
  {| Inference.timestamp := PInt 5;
     Inference.client_ip := PStr "unknown";
     Inference.url_path := PStr "unknown";
     Inference.status_code := PStr "unknown";
     Inference.is_anomaly := true;
     Inference.ensemble_score := (2 # 3)%Q;
     Inference.risk_level := HIGH;
     Inference.individual_predictions :=
       <["isolation_forest" := 1%Z]>
         (<["one_class_svm" := 1%Z]> {["lof_detector" := 0%Z]});
     Inference.individual_scores :=
       <["isolation_forest" := (-1 # 10)%Q]>
         (<["one_class_svm" := (-1 # 10)%Q]> {["lof_detector" := 1%Q]}) |}.

End Scenarios.

(** * Sample inputs for the monitor and the trainer *)

Module Streams.

(** An event of the index with its timestamp. *)
Definition stamped (ts : string) : dict :=
  <["@timestamp" := PStr ts]> (<["remote_addr" := PStr "10.0.0.1"]> ∅).

(** The answer to one poll, newest first. *)
Definition minute_batch : list dict :=
  [stamped "2025-10-05T12:00:02"; stamped "2025-10-05T12:00:01"].

Definition millisecond (_ : nat) : Q := (1 # 1000)%Q.

(** An event whose user agent is null, and a plain one with and without a
    request URI. *)
Definition null_agent : dict := <["http_user_agent" := PNone]> ∅.

Definition plain : dict :=
  <["http_user_agent" := PStr "curl/8.0"]> (<["request_method" := PStr "GET"]> ∅).

Definition plain_admin : dict := <["request_uri" := PStr "/admin"]> plain.


(** The second of the day that an ISO timestamp names; a number stands for
    itself. *)
Definition two_digits (s : string) (i : nat) : Z :=
  match String.get i s, String.get (S i) s with
  | Some a, Some b =>
      10 * (Z.of_nat (nat_of_ascii a) - 48) + (Z.of_nat (nat_of_ascii b) - 48)
  | _, _ => 0
  end.

Definition second_of_day (v : pyval) : Z :=
  match v with
  | PStr s => 3600 * two_digits s 11 + 60 * two_digits s 14 + two_digits s 17
  | PInt z => z
  | _ => 0
  end.

(** A request that carries no timestamp, the same request stamped, and a
    store that holds one stamped an hour before noon and one without. *)
Definition unstamped : dict :=
  <["method" := PStr "GET"]> (<["url" := PStr "/index.html"]> ∅).

Definition stamped_request (ts : string) : dict :=
  <["@timestamp" := PStr ts]> unstamped.

Definition mixed_store : list dict :=
  [unstamped; stamped_request "2025-10-05T11:00:00"].

(** Exact arithmetic as a rounding. *)
Definition exact : Binary64.rounding :=
  Binary64.Rounding (fun x => x) (fun _ _ H => H) eq_refl eq_refl eq_refl.

End Streams.

(** * Properties *)

Local Open Scope list_scope.

(** ** Comparisons on scores *)

Lemma Qle_bool_false (a b : Q) : Qle_bool a b = false <-> (b < a)%Q.
Proof.
  split.
  - intros H. apply Qnot_le_lt. intros Hle. apply Qle_bool_iff in Hle. congruence.
  - intros H. destruct (Qle_bool a b) eqn:E; [|reflexivity].
    apply Qle_bool_iff in E. exfalso. apply (Qlt_not_le _ _ H E).
Qed.

Lemma Qlt_bool_iff (a b : Q) : Qlt_bool a b = true <-> (a < b)%Q.
Proof.
  unfold Qlt_bool. rewrite negb_true_iff. apply Qle_bool_false.
Qed.

Ltac q_cases :=
  repeat match goal with
  | |- context [Qle_bool ?a ?b] =>
      let E := fresh "E" in
      destruct (Qle_bool a b) eqn:E;
      [apply Qle_bool_iff in E | apply Qle_bool_false in E]
  end.

(** ** ml_alerting_system.py *)

Section AlertingFacts.
Import Alerting.

Lemma severity_not_low (s : Q) :
  ((5 # 10) <= s)%Q -> _get_severity_level default_thresholds s <> LOW.
Proof.
  unfold _get_severity_level, default_thresholds; simpl.
  intros H. q_cases; try discriminate. lra.
Qed.

(** C1, as stated, fails at the score 0.1: the classifier answers LOW
    although 0.1 is not in the band from 0.3 to 0.5. *)
Lemma severity_low_outside_band :
  ~ (_get_severity_level default_thresholds (1 # 10) = LOW
     <-> ((3 # 10) <= (1 # 10) /\ (1 # 10) < (5 # 10))%Q).
Proof.
  intros [H _]. destruct (H eq_refl) as [Hle _].
  revert Hle. apply Qlt_not_le. reflexivity.
Qed.

(** C1, amended: with the default thresholds the classifier answers
    CRITICAL iff s >= 0.9, HIGH iff 0.7 <= s < 0.9, MEDIUM iff
    0.5 <= s < 0.7 and LOW iff s < 0.5 (LOW is the catch-all branch); a
    boundary value belongs to the higher tier: 0.9 is CRITICAL and 0.89999
    is HIGH. *)
Theorem severity_bands (s : Q) :
  (_get_severity_level default_thresholds s = CRITICAL <-> ((9 # 10) <= s)%Q)
  /\ (_get_severity_level default_thresholds s = HIGH
      <-> ((7 # 10) <= s /\ s < (9 # 10))%Q)
  /\ (_get_severity_level default_thresholds s = MEDIUM
      <-> ((5 # 10) <= s /\ s < (7 # 10))%Q)
  /\ (_get_severity_level default_thresholds s = LOW <-> (s < (5 # 10))%Q)
  /\ _get_severity_level default_thresholds (9 # 10) = CRITICAL
  /\ _get_severity_level default_thresholds (89999 # 100000) = HIGH.
Proof.
  unfold _get_severity_level, default_thresholds; simpl.
  q_cases; repeat split; intros; try discriminate; try reflexivity;
    repeat match goal with H : (_ /\ _)%type |- _ => destruct H end; lra.
Qed.

(** The loop reports an event exactly when its score reaches the MEDIUM
    threshold. *)
Lemma scan_events_step (th : by_severity Q) (now : clock) (g : rng)
    (event : dict) (rest : list dict) (acc : list anomaly) (st : state) (s : Q) :
  _calculate_risk_score g (draws st) event = Ok s ->
  scan_events th now g (event :: rest) acc st =
    if Qle_bool (lookup_sev th MEDIUM) s
    then scan_events th now g rest
           (acc ++ [anomaly_of_event now event s (_get_severity_level th s)])
           (State (update_sev (alert_counts st) (_get_severity_level th s) S)
                  (S (draws st)))
    else scan_events th now g rest acc (State (alert_counts st) (S (draws st))).
Proof.
  intros H. simpl. rewrite H. reflexivity.
Qed.

(** Everything a scan adds to the list scores at least 0.5 and is never
    tiered LOW. *)
Lemma scan_events_reported (now : clock) (g : rng) (recent_data : list dict) :
  forall (acc anomalies : list anomaly) (st st' : state),
    scan_events default_thresholds now g recent_data acc st = (Ok anomalies, st') ->
    exists added,
      anomalies = (acc ++ added)%list
      /\ Forall (fun a => ((5 # 10) <= a_risk_score a)%Q
                          /\ a_severity a
                             = _get_severity_level default_thresholds (a_risk_score a)
                          /\ a_severity a <> LOW) added.
Proof.
  induction recent_data as [|event rest IH]; intros acc anomalies st st' H.
  - simpl in H. injection H as <- <-. exists []. split; [by rewrite app_nil_r | constructor].
  - destruct (_calculate_risk_score g (draws st) event) as [s|e] eqn:Hs;
      [|simpl in H; rewrite Hs in H; discriminate].
    rewrite (scan_events_step _ _ _ _ _ _ _ _ Hs) in H.
    destruct (Qle_bool (lookup_sev default_thresholds MEDIUM) s) eqn:Hm.
    + apply IH in H as [added [-> Hall]].
      eexists (_ :: added). split; [by rewrite <- app_assoc|].
      constructor; [|exact Hall]. simpl.
      apply Qle_bool_iff in Hm. simpl in Hm.
      split; [exact Hm|]. split; [reflexivity|].
      by apply severity_not_low.
    + apply IH in H. exact H.
Qed.

(** C9, as stated, fails: the empty event with the draw 7/8 scores 0.35,
    inside the LOW band, and no alert is created for it. *)
Lemma low_band_event_not_alerted :
  _calculate_risk_score (Samples.fixed_rng (7 # 8)) 0 ∅ = Ok (28 # 80)
  /\ ((3 # 10) <= (28 # 80) /\ (28 # 80) < (5 # 10))%Q
  /\ fst (check_ml_anomalies default_thresholds Samples.noon
             (Samples.fixed_rng (7 # 8)) (Some [∅]) Samples.fresh) = [].
Proof.
  split; [vm_compute; reflexivity|].
  split; [split; [apply Qle_bool_iff | apply Qlt_bool_iff]; reflexivity|].
  vm_compute. reflexivity.
Qed.

Lemma scan_events_app (th : by_severity Q) (now : clock) (g : rng)
    (l1 l2 : list dict) :
  forall (acc : list anomaly) (st : state),
    scan_events th now g (l1 ++ l2) acc st
    = match scan_events th now g l1 acc st with
      | (Ok acc', st') => scan_events th now g l2 acc' st'
      | (Raise e, st') => (Raise e, st')
      end.
Proof.
  induction l1 as [|event l1 IH]; intros acc st; [reflexivity|].
  simpl. destruct (_calculate_risk_score g (draws st) event) as [s|e]; [|reflexivity].
  destruct (Qle_bool (medium th) s); apply IH.
Qed.

(** What [check_ml_anomalies] returns when the scan of a batch raises. *)
Lemma check_scan_raised (th : by_severity Q) (now : clock) (g : rng)
    (batch : list dict) (st st2 : state) (e : exn) :
  scan_events th now g batch [] st = (Raise e, st2) ->
  check_ml_anomalies th now g (Some batch) st
  = _generate_synthetic_anomalies th now g st2.
Proof.
  intros H. unfold check_ml_anomalies.
  destruct batch as [|event rest]; [discriminate|].
  rewrite H. reflexivity.
Qed.

(** C9, amended: [event] is met after the events [before], and [s] is its
    score.  When the scan goes through the whole batch, the event is
    reported iff its score is at least the MEDIUM threshold (0.5 by
    default), with the tier the classifier gives it, which is then never
    LOW; an event scoring below 0.5, the LOW band included, adds no alert.
    When the scoring of a later event of the batch raises, no alert of the
    batch is returned: the result is the synthetic list. *)
Theorem alert_iff_medium (now : clock) (g : rng) (before after : list dict)
    (event : dict) (st st1 : state) (reported : list anomaly) (s : Q) :
  scan_events default_thresholds now g before [] st = (Ok reported, st1) ->
  _calculate_risk_score g (draws st1) event = Ok s ->
  (forall (anomalies : list anomaly) (st' : state),
     scan_events default_thresholds now g (before ++ event :: after) [] st
     = (Ok anomalies, st') ->
     check_ml_anomalies default_thresholds now g (Some (before ++ event :: after)) st
     = (anomalies, st')
     /\ (exists rest,
           anomalies
           = (reported
              ++ (if Qle_bool (5 # 10) s
                  then [anomaly_of_event now event s
                          (_get_severity_level default_thresholds s)]
                  else [])
              ++ rest)%list)
     /\ Forall (fun a => ((5 # 10) <= a_risk_score a)%Q /\ a_severity a <> LOW)
               anomalies)
  /\ (forall (e : exn) (st2 : state),
        scan_events default_thresholds now g (before ++ event :: after) [] st
        = (Raise e, st2) ->
        check_ml_anomalies default_thresholds now g
          (Some (before ++ event :: after)) st
        = _generate_synthetic_anomalies default_thresholds now g st2
        /\ exists (acc : list anomaly) (st1' : state),
             scan_events default_thresholds now g (before ++ [event]) [] st
             = (Ok acc, st1')
             /\ scan_events default_thresholds now g after acc st1' = (Raise e, st2))
  /\ (((5 # 10) <= s)%Q -> _get_severity_level default_thresholds s <> LOW).
Proof.
  intros Hbefore Hs. split; [|split].
  - intros anomalies st' Hall. split; [|split].
    + unfold check_ml_anomalies. rewrite Hall.
      destruct before; reflexivity.
    + rewrite scan_events_app, Hbefore, (scan_events_step _ _ _ _ _ _ _ _ Hs) in Hall.
      change (lookup_sev default_thresholds MEDIUM) with (5 # 10)%Q in Hall.
      destruct (Qle_bool (5 # 10) s);
        apply scan_events_reported in Hall as [added [-> _]]; exists added.
      * by rewrite <- app_assoc.
      * reflexivity.
    + apply scan_events_reported in Hall as [added [-> Hadded]]. simpl.
      eapply List.Forall_impl; [|exact Hadded]. simpl. tauto.
  - intros e st2 Hall. split; [by apply (check_scan_raised _ _ _ _ _ _ e)|].
    change (before ++ event :: after)%list
      with (before ++ [event] ++ after)%list in Hall.
    rewrite app_assoc, scan_events_app in Hall.
    destruct (scan_events default_thresholds now g (before ++ [event]) [] st)
      as [[acc|e'] st1'] eqn:E.
    + exists acc, st1'. split; [reflexivity | exact Hall].
    + exfalso. rewrite scan_events_app, Hbefore,
        (scan_events_step _ _ _ _ _ _ _ _ Hs) in E.
      destruct (Qle_bool (lookup_sev default_thresholds MEDIUM) s);
        cbn [scan_events] in E; discriminate.
  - apply severity_not_low.
Qed.

Lemma alert_iff_medium_witness :
  check_ml_anomalies default_thresholds Samples.noon (Samples.fixed_rng (3 # 4))
    (Some [Samples.page_view; Samples.probe; Samples.page_view]) Samples.fresh
  = ([anomaly_of_event Samples.noon Samples.probe (3200 # 4000) HIGH],
     State (BySeverity 0%nat 1%nat 0%nat 0%nat) 3).
Proof.
  refine (proj1 (proj1 (alert_iff_medium Samples.noon (Samples.fixed_rng (3 # 4))
                          [Samples.page_view] [Samples.page_view] Samples.probe
                          Samples.fresh (State zero_counts 1) []
                          (3200 # 4000) _ _)
                   [anomaly_of_event Samples.noon Samples.probe (3200 # 4000) HIGH]
                   (State (BySeverity 0%nat 1%nat 0%nat 0%nat) 3) _));
    vm_compute; reflexivity.
Defined.



End AlertingFacts.

(** ** realtime_ml_inference.py: scoring *)

Section InferenceFacts.
Import Inference.

Lemma has_error_scored (v : verdict) : has_key "error" (Scored v) = false.
Proof. reflexivity. Qed.

Lemma has_error_failed (e : string) (t : pyval) : has_key "error" (Failed e t) = true.
Proof. reflexivity. Qed.

(** The timestamp of a verdict is the record's own, or the wall clock. *)
Lemma scored_timestamp (self : engine) (now : clock) (record : dict) (v : verdict) :
  score_record self now record = Scored v ->
  timestamp v = get record "@timestamp" (PStr (isoformat now)).
Proof.
  unfold score_record, score_record_body.
  destruct (_prepare_feature_vector self record) as [x|e]; simpl; [|discriminate].
  destruct (score_with "isolation_forest" self x (∅, ∅)) as [a1|e]; simpl;
    [|discriminate].
  destruct (score_with "one_class_svm" self x a1) as [a2|e]; simpl; [|discriminate].
  intros H. injection H as <-. reflexivity.
Qed.

(** C7 fails on the inference engine: a record without the ['method']
    field makes [_engineer_features_single_record] raise instead of using
    the default it names, whatever else the record holds. *)
Theorem missing_method_raises (self : engine) (record : dict) :
  record !! "method" = None ->
  _engineer_features_single_record self record
  = Raise (Exn "AttributeError" "'str' object has no attribute 'map'").
Proof.
  intros H. unfold _engineer_features_single_record, method_encoded.
  rewrite H. reflexivity.
Qed.

Lemma missing_method_raises_witness :
  _engineer_features_single_record Samples.forest_only (Samples.no_method 10)
  = Raise (Exn "AttributeError" "'str' object has no attribute 'map'").
Proof.
  apply (missing_method_raises Samples.forest_only (Samples.no_method 10)).
  reflexivity.
Defined.

(** C10, as stated, fails for the LOF detector: its [predict] raises on
    the prepared features, yet the result has no ['error'] key. *)
Lemma lof_error_absorbed :
  _prepare_feature_vector Samples.lof_broken (Samples.get_request 5)
  = Ok [PInt 0; PInt 0; PInt 0; PInt 0; PInt 0; PInt 11; PInt 0; PInt 0; PInt 0]
  /\ call_predict Samples.broken
       [PInt 0; PInt 0; PInt 0; PInt 0; PInt 0; PInt 11; PInt 0; PInt 0; PInt 0]
     = Raise Samples.shape_error
  /\ has_key "error" (score_record Samples.lof_broken Samples.noon (Samples.get_request 5))
     = false
  /\ scores_of (score_record Samples.lof_broken Samples.noon (Samples.get_request 5))
     = inl ({["lof_detector" := 0%Z]}, {["lof_detector" := 1%Q]}, 0%Q, LOW, false).
Proof.
  repeat split; vm_compute; reflexivity.
Qed.

(** C10, amended: [score_record] always returns a dict.  The dict is the
    two-key one, ['error'] and ['timestamp'], exactly when feature
    preparation, the isolation forest or the one-class SVM raises.  An
    error of the LOF detector is absorbed by its own handler: whenever its
    [predict] raises on the prepared features, a verdict that is returned
    records the vote 0 and the score 1.0 for it.  In the loop a result with
    ['error'] leaves the watermark as it was. *)
Theorem score_record_total (self : engine) (now : clock) (record : dict) :
  has_key "error" (score_record self now record)
  = raised (x <- _prepare_feature_vector self record ;;
            acc <- score_with "isolation_forest" self x (∅, ∅) ;;
            score_with "one_class_svm" self x acc)%res
  /\ keys (score_record self now record)
     = (if has_key "error" (score_record self now record)
        then ["error"; "timestamp"]
        else ["timestamp"; "client_ip"; "url_path"; "status_code"; "is_anomaly";
              "ensemble_score"; "risk_level"; "individual_predictions";
              "individual_scores"])
  /\ (forall (st : monitor) (n : nat),
       last_processed_timestamp (fst (process_hit self now (st, n) record))
       = (if has_key "error" (score_record self now record)
          then last_processed_timestamp st
          else get record "@timestamp" (PStr (isoformat now))))
  /\ (forall (m : model) (f : list pyval -> res Z) (x : list pyval) (e : exn)
             (v : verdict),
       optimized_models self !! "lof_detector" = Some m ->
       predict m = Some f ->
       _prepare_feature_vector self record = Ok x ->
       f x = Raise e ->
       score_record self now record = Scored v ->
       individual_predictions v !! "lof_detector" = Some 0%Z
       /\ individual_scores v !! "lof_detector" = Some 1%Q)
  /\ (forall (m : model) (f : list pyval -> res Z) (x : list pyval) (e : exn),
       optimized_models self = {["lof_detector" := m]} ->
       predict m = Some f ->
       _prepare_feature_vector self record = Ok x ->
       f x = Raise e ->
       scores_of (score_record self now record)
       = inl ({["lof_detector" := 0%Z]}, {["lof_detector" := 1%Q]}, 0%Q, LOW, false)).
Proof.
  split; [|split; [|split; [|split]]].
  - unfold score_record, score_record_body.
    destruct (_prepare_feature_vector self record) as [x|e]; simpl; [|reflexivity].
    destruct (score_with "isolation_forest" self x (∅, ∅)) as [a1|e]; simpl;
      [|reflexivity].
    destruct (score_with "one_class_svm" self x a1) as [a2|e]; reflexivity.
  - destruct (score_record self now record); reflexivity.
  - intros st n. unfold process_hit.
    destruct (score_record self now record) as [v|err t] eqn:E.
    + rewrite (scored_timestamp self now record v E).
      destruct (is_anomaly v); reflexivity.
    + reflexivity.
  - intros m f x e v Hm Hf Hx Hraise. unfold score_record, score_record_body.
    rewrite Hx. cbn [bind].
    destruct (score_with "isolation_forest" self x (∅, ∅)) as [a1|e1];
      cbn [bind catch]; [|discriminate].
    destruct (score_with "one_class_svm" self x a1) as [a2|e2];
      cbn [bind catch]; [|discriminate].
    intros H. injection H as <-.
    cbn [individual_predictions individual_scores].
    unfold score_lof. rewrite Hm, Hf, Hraise. cbn [fst snd].
    split; apply lookup_insert_eq.
  - intros m f x e Hm Hf Hx Hraise. unfold score_record, score_record_body.
    rewrite Hx. cbn [bind]. unfold score_with, score_lof. rewrite Hm.
    rewrite !lookup_singleton_ne by discriminate.
    rewrite lookup_singleton_eq, Hf, Hraise.
    cbn [bind catch scores_of fst snd individual_predictions individual_scores
         ensemble_score risk_level is_anomaly].
    reflexivity.
Qed.

Lemma process_hit_failed (self : engine) (now : clock) (st : monitor) (n : nat)
    (record : dict) :
  has_key "error" (score_record self now record) = true ->
  process_hit self now (st, n) record
  = (Monitor (last_processed_timestamp st)
             (stdout st ++ [ErrorProcessing (error_of (score_record self now record))]),
     n).
Proof.
  unfold process_hit.
  destruct (score_record self now record) as [v|e t]; [discriminate|].
  intros _. reflexivity.
Qed.

(** C8, as stated, fails: the newest event of the store cannot be scored;
    the watermark stays at 5, below the event's timestamp 10, and the next
    cycle is handed the same event again. *)
Lemma failed_event_retried :
  let store := [Samples.get_request 5; Samples.no_method 10] in
  let searches := [es_search Samples.epoch store; es_search Samples.epoch store] in
  let final := monitor_new_logs Samples.forest_only Samples.noon searches initial in
  last_processed_timestamp final = PInt 5
  /\ processed Samples.forest_only Samples.noon searches initial
     = [Samples.get_request 5; Samples.no_method 10; Samples.no_method 10]
  /\ List.filter Samples.is_error_line (stdout final)
     = [ErrorProcessing "Scoring failed: 'str' object has no attribute 'map'";
        ErrorProcessing "Scoring failed: 'str' object has no attribute 'map'"].
Proof.
  repeat split; vm_compute; reflexivity.
Qed.

(** A batch in which every record fails leaves the next search as it was. *)
Lemma failed_batch_same_query (self : engine) (now : clock) (records : list dict) :
  forall (st : monitor) (n : nat),
    Forall (fun r => has_key "error" (score_record self now r) = true) records ->
    last_processed_timestamp (fst (fold_left (process_hit self now) records (st, n)))
    = last_processed_timestamp st.
Proof.
  induction records as [|r rest IH]; intros st n H; [reflexivity|].
  inversion H as [|? ? Hr Hrest]; subst.
  cbn [fold_left]. rewrite (process_hit_failed _ _ _ _ _ Hr).
  rewrite IH; [reflexivity | exact Hrest].
Qed.






End InferenceFacts.

(** ** realtime_ml_inference.py: the watermark *)

Lemma last_cons {A : Type} (l : list A) :
  forall a d : A, List.last (a :: l) d = List.last l a.
Proof.
  induction l as [|b l IH]; intros a d; [reflexivity|].
  change (List.last (a :: b :: l) d) with (List.last (b :: l) d).
  rewrite (IH b d), (IH b a). reflexivity.
Qed.

Lemma last_default_or_in {A : Type} (l : list A) (d : A) :
  List.last l d = d \/ In (List.last l d) l.
Proof.
  induction l as [|a l IH]; [left; reflexivity|].
  right. rewrite last_cons. destruct (IH) as [H|H].
  - destruct l as [|b l]; [left; reflexivity|].
    right. rewrite last_cons. rewrite last_cons in H.
    clear IH H. revert b. induction l as [|c l IHl]; intros b; [left; reflexivity|].
    right. rewrite last_cons. apply IHl.
  - destruct l as [|b l]; [left; reflexivity|].
    right. rewrite last_cons. rewrite last_cons in H. exact H.
Qed.

Lemma Sorted_app_last {A : Type} (R : A -> A -> Prop) (l1 : list A) :
  forall (a : A) (l2 : list A),
    Sorted R (a :: l1) -> Sorted R (List.last l1 a :: l2) -> Sorted R (a :: l1 ++ l2).
Proof.
  induction l1 as [|b l1 IH]; intros a l2 H1 H2; [exact H2|].
  apply Sorted_inv in H1 as [H1 Hd]. apply HdRel_inv in Hd.
  rewrite last_cons in H2.
  change (Sorted R (a :: b :: l1 ++ l2)).
  constructor; [apply (IH b l2 H1 H2) | constructor; exact Hd].
Qed.

Section WatermarkFacts.
Import Inference.
Variable date_of : pyval -> Z.
Variable self : engine.
Variable now : clock.

Lemma process_hit_watermark (st : monitor) (n : nat) (r : dict) :
  last_processed_timestamp (fst (process_hit self now (st, n) r))
  = next_watermark self now (last_processed_timestamp st) r.
Proof.
  unfold next_watermark, process_hit.
  destruct (score_record self now r) as [v|e t]; simpl;
    [destruct (is_anomaly v)|]; reflexivity.
Qed.

Lemma fold_process_watermark (records : list dict) :
  forall (st : monitor) (n : nat),
    last_processed_timestamp (fst (fold_left (process_hit self now) records (st, n)))
    = fold_left (next_watermark self now) records (last_processed_timestamp st).
Proof.
  induction records as [|r rest IH]; intros st n; [reflexivity|].
  cbn [fold_left].
  destruct (process_hit self now (st, n) r) as [st' n'] eqn:E.
  rewrite IH. f_equal.
  rewrite <- (process_hit_watermark st n r), E. reflexivity.
Qed.

(** The records a search contributes, in processing order. *)
Lemma cycle_watermark (st : monitor) (search : source) :
  last_processed_timestamp (cycle self now st search)
  = fold_left (next_watermark self now)
      (match search (build_query st) with
       | Ok hits => rev hits
       | Raise _ => []
       end)
      (last_processed_timestamp st).
Proof.
  unfold cycle.
  destruct (search (build_query st)) as [hits|e]; [|reflexivity].
  destruct hits as [|h hs]; [reflexivity|].
  pose proof (fold_process_watermark (rev (h :: hs))
                (print (Processing (length (h :: hs))) st) 0%nat) as H.
  destruct (fold_left (process_hit self now) (rev (h :: hs))
              (print (Processing (length (h :: hs))) st, 0%nat)) as [st' k].
  simpl in H. destruct (k =? 0)%nat; simpl; exact H.
Qed.

Lemma run_watermark (searches : list source) :
  forall st : monitor,
    last_processed_timestamp (monitor_new_logs self now searches st)
    = fold_left (next_watermark self now) (processed self now searches st)
        (last_processed_timestamp st).
Proof.
  unfold monitor_new_logs.
  induction searches as [|s rest IH]; intros st; [reflexivity|].
  cbn [fold_left processed]. rewrite IH, fold_left_app, cycle_watermark.
  reflexivity.
Qed.

Lemma next_watermark_cases (w : pyval) (r : dict) :
  next_watermark self now w r
  = if succeeded self now r then get r "@timestamp" (PStr (isoformat now)) else w.
Proof.
  unfold next_watermark, succeeded, process_hit.
  destruct (score_record self now r) as [v|e t] eqn:E; simpl; [|reflexivity].
  rewrite <- (scored_timestamp _ _ _ _ E). destruct (is_anomaly v); reflexivity.
Qed.

(** The watermark is the timestamp of the last record that was scored. *)
Lemma fold_next_find (records : list dict) :
  forall w : pyval,
    fold_left (next_watermark self now) records w
    = match List.find (succeeded self now) (rev records) with
      | Some r => get r "@timestamp" (PStr (isoformat now))
      | None => w
      end.
Proof.
  induction records as [|x records IH] using rev_ind; intros w; [reflexivity|].
  rewrite fold_left_app, rev_app_distr. simpl. rewrite next_watermark_cases.
  destruct (succeeded self now x); [reflexivity | apply IH].
Qed.

Lemma trace_last (records : list dict) :
  forall w : pyval,
    List.last (watermark_trace self now records w) w
    = fold_left (next_watermark self now) records w.
Proof.
  induction records as [|r rest IH]; intros w; [reflexivity|].
  cbn [watermark_trace fold_left]. rewrite last_cons. apply IH.
Qed.

Lemma trace_app (l1 l2 : list dict) :
  forall w : pyval,
    watermark_trace self now (l1 ++ l2) w
    = (watermark_trace self now l1 w
       ++ watermark_trace self now l2 (fold_left (next_watermark self now) l1 w))%list.
Proof.
  induction l1 as [|r l1 IH]; intros w; [reflexivity|].
  simpl. rewrite IH. reflexivity.
Qed.

Lemma not_after_refl (w : pyval) : not_after date_of w w.
Proof.
  destruct w; [left; reflexivity | right; split; [discriminate | lia] ..].
Qed.

Lemma not_after_trans (w1 w2 w3 : pyval) :
  not_after date_of w1 w2 -> not_after date_of w2 w3 -> not_after date_of w1 w3.
Proof.
  intros [H1|[Hn1 H1]] [H2|[Hn2 H2]]; try (left; assumption).
  - contradiction.
  - right. split; [assumption | lia].
Qed.

Lemma truthy_not_none (v : pyval) : truthy v = true -> v <> PNone.
Proof. intros H ->. discriminate. Qed.

(** One batch: the hits answer the search issued from watermark [w0]. *)
Lemma batch_sorted (hits : list dict) :
  forall w0 : pyval,
    well_formed w0 ->
    honours date_of (Query (if truthy w0 then Some w0 else None) 10) hits = true ->
    Sorted (not_after date_of) (w0 :: watermark_trace self now (rev hits) w0)
    /\ (fold_left (next_watermark self now) (rev hits) w0 = w0
        \/ exists r ts, In r hits /\ r !! "@timestamp" = Some ts /\ truthy ts = true
                        /\ fold_left (next_watermark self now) (rev hits) w0 = ts).
Proof.
  induction hits as [|h hs IH]; intros w0 Hw H.
  - split; [repeat constructor | left; reflexivity].
  - unfold honours in H. cbn [forallb descending] in H.
    apply andb_true_iff in H as [H Hd].
    apply andb_true_iff in H as [Hh Hhs].
    apply andb_true_iff in Hd as [Hnew Hd].
    destruct (IH w0 Hw) as [Hs Hf].
    { unfold honours. rewrite Hhs, Hd. reflexivity. }
    destruct (h !! "@timestamp") as [ts|] eqn:Ets; [|discriminate].
    apply andb_true_iff in Hh as [Hts Hm].
    assert (Hget : get h "@timestamp" (PStr (isoformat now)) = ts)
      by (unfold get; rewrite Ets; reflexivity).
    cbn [rev]. rewrite trace_app, fold_left_app. cbn [fold_left watermark_trace].
    rewrite next_watermark_cases, Hget.
    set (w' := fold_left (next_watermark self now) (rev hs) w0) in *.
    assert (Hstep : not_after date_of w' (if succeeded self now h then ts else w')).
    { destruct (succeeded self now h); [|apply not_after_refl].
      destruct Hf as [Hf|(r & tr & Hin & Er & Htr & Hf)].
      - rewrite Hf. destruct Hw as [Hw|Hw]; [left; exact Hw|].
        right. split; [by apply truthy_not_none|].
        unfold matches in Hm. rewrite Hw in Hm. cbn [range_gt] in Hm.
        rewrite Ets in Hm. apply Z.ltb_lt in Hm. lia.
      - rewrite Hf. right. split; [by apply truthy_not_none|].
        rewrite forallb_forall in Hnew. specialize (Hnew r Hin).
        unfold newer in Hnew. rewrite Ets, Er in Hnew.
        apply Z.leb_le in Hnew. exact Hnew. }
    split.
    + apply Sorted_app_last; [exact Hs|].
      rewrite trace_last. fold w'.
      apply Sorted_cons; [repeat constructor | apply HdRel_cons; exact Hstep].
    + destruct (succeeded self now h).
      * right. exists h, ts. repeat split; try assumption. left; reflexivity.
      * destruct Hf as [Hf|(r & tr & Hin & Er & Htr & Hf)]; [left; exact Hf|].
        right. exists r, tr. repeat split; try assumption. right; exact Hin.
Qed.

Lemma cycle_well_formed (st : monitor) (search : source) :
  well_formed (last_processed_timestamp st) ->
  match search (build_query st) with
  | Ok hits => honours date_of (build_query st) hits = true
  | Raise _ => True
  end ->
  well_formed (last_processed_timestamp (cycle self now st search)).
Proof.
  intros Hw Hh. rewrite cycle_watermark.
  destruct (search (build_query st)) as [hits|e]; [|exact Hw].
  destruct (batch_sorted hits _ Hw Hh) as [_ [Hf|(r & tr & _ & _ & Htr & Hf)]];
    rewrite Hf; [exact Hw | right; exact Htr].
Qed.

Lemma run_sorted (searches : list source) :
  forall st : monitor,
    well_formed (last_processed_timestamp st) ->
    all_honoured date_of self now searches st ->
    Sorted (not_after date_of)
      (last_processed_timestamp st
       :: watermark_trace self now (processed self now searches st)
            (last_processed_timestamp st)).
Proof.
  induction searches as [|s rest IH]; intros st Hw Hall.
  - repeat constructor.
  - destruct Hall as [Hh Hrest]. cbn [processed]. rewrite trace_app.
    apply Sorted_app_last.
    + destruct (s (build_query st)) as [hits|e]; [|repeat constructor].
      apply (batch_sorted hits _ Hw Hh).
    + rewrite trace_last, <- cycle_watermark.
      apply IH; [by apply cycle_well_formed | exact Hrest].
Qed.

Lemma all_honoured_app (pre post : list source) :
  forall st : monitor,
    well_formed (last_processed_timestamp st) ->
    all_honoured date_of self now (pre ++ post) st ->
    well_formed (last_processed_timestamp (monitor_new_logs self now pre st))
    /\ all_honoured date_of self now post (monitor_new_logs self now pre st).
Proof.
  unfold monitor_new_logs.
  induction pre as [|s pre IH]; intros st Hw Hall; [split; assumption|].
  destruct Hall as [Hh Hrest]. cbn [fold_left].
  apply IH; [by apply cycle_well_formed | exact Hrest].
Qed.

(** C4, amended: when every search is answered as asked (hits above the watermark,
    each with a timestamp, newest first), the watermark never moves
    backward, neither from one processed record to the next nor from one
    cycle to a later one, and after every cycle it is the timestamp of the
    last record that was scored without error. *)
Theorem watermark_never_moves_back (searches : list source) (st : monitor) :
  well_formed (last_processed_timestamp st) ->
  all_honoured date_of self now searches st ->
  StronglySorted (not_after date_of)
    (last_processed_timestamp st
     :: watermark_trace self now (processed self now searches st)
          (last_processed_timestamp st))
  /\ forall pre post : list source,
       searches = (pre ++ post)%list ->
       not_after date_of
         (last_processed_timestamp (monitor_new_logs self now pre st))
         (last_processed_timestamp (monitor_new_logs self now searches st))
       /\ last_processed_timestamp (monitor_new_logs self now pre st)
          = match List.find (succeeded self now)
                    (rev (processed self now pre st)) with
            | Some r => get r "@timestamp" (PStr (isoformat now))
            | None => last_processed_timestamp st
            end.
Proof.
  intros Hw Hall.
  assert (Htrans : Relations_1.Transitive (not_after date_of))
    by (intros x y z; apply not_after_trans).
  split.
  - apply Sorted_StronglySorted; [exact Htrans | by apply run_sorted].
  - intros pre post ->. split; [|rewrite run_watermark; apply fold_next_find].
    destruct (all_honoured_app pre post st Hw Hall) as [Hw1 Hall1].
    unfold monitor_new_logs at 2. rewrite fold_left_app.
    fold (monitor_new_logs self now pre st).
    fold (monitor_new_logs self now post (monitor_new_logs self now pre st)).
    set (st1 := monitor_new_logs self now pre st) in *.
    pose proof (run_sorted post st1 Hw1 Hall1) as Hs.
    apply Sorted_StronglySorted in Hs; [|exact Htrans].
    apply StronglySorted_inv in Hs as [_ Hs].
    rewrite run_watermark, <- trace_last.
    destruct (last_default_or_in
                (watermark_trace self now (processed self now post st1)
                   (last_processed_timestamp st1))
                (last_processed_timestamp st1)) as [E|Hin].
    + rewrite E. apply not_after_refl.
    + rewrite List.Forall_forall in Hs. apply Hs. exact Hin.
Qed.

End WatermarkFacts.

(** ** realtime_ml_inference.py: skipped events *)

Section SkippedEvents.
Import Inference.

(** C8, amended: an event whose scoring fails is skipped and the skip is
    printed; the failed event does not move the watermark and counts no
    anomaly.  The watermark passes it only when a later event is scored:
    after the rest of the batch it is the timestamp of the last later record
    that was scored, and otherwise what it was before the failed event. *)
Theorem failed_event_skipped (self : engine) (now : clock) (st : monitor) (n : nat)
    (record : dict) :
  has_key "error" (score_record self now record) = true ->
  process_hit self now (st, n) record
  = (Monitor (last_processed_timestamp st)
             (stdout st ++ [ErrorProcessing (error_of (score_record self now record))]),
     n)
  /\ forall later : list dict,
       last_processed_timestamp
         (fst (fold_left (process_hit self now) (record :: later) (st, n)))
       = match List.find (succeeded self now) (rev later) with
         | Some r => get r "@timestamp" (PStr (isoformat now))
         | None => last_processed_timestamp st
         end.
Proof.
  intros H. split; [by apply process_hit_failed|].
  intros later. cbn [fold_left]. rewrite (process_hit_failed _ _ _ _ _ H).
  rewrite fold_process_watermark. apply fold_next_find.
Qed.

Lemma failed_event_skipped_witness :
  process_hit Samples.forest_only Samples.noon (Monitor (PInt 5) [], 0%nat)
    (Samples.no_method 10)
  = (Monitor (PInt 5)
       [ErrorProcessing "Scoring failed: 'str' object has no attribute 'map'"],
     0%nat).
Proof.
  refine (proj1 (failed_event_skipped Samples.forest_only Samples.noon
                   (Monitor (PInt 5) []) 0%nat (Samples.no_method 10) _)).
  reflexivity.
Defined.

End SkippedEvents.

(** C4, as stated, fails: the first search has no lower bound, and the
    store answers it with a request that carries no timestamp after one
    stamped 11:00.  The loop takes the hits oldest first: the unstamped
    request sets the watermark to the wall clock, 12:00, and the stamped one
    moves it back to 11:00. *)
Lemma watermark_moves_back :
  let searches := [Inference.es_search Streams.second_of_day Streams.mixed_store] in
  Inference.processed Samples.forest_only Samples.noon searches Inference.initial
  = [Streams.unstamped; Streams.stamped_request "2025-10-05T11:00:00"]
  /\ Inference.watermark_trace Samples.forest_only Samples.noon
       (Inference.processed Samples.forest_only Samples.noon searches Inference.initial)
       PNone
     = [PStr "2025-10-05T12:00:00"; PStr "2025-10-05T11:00:00"]
  /\ ~ Inference.not_after Streams.second_of_day
         (PStr "2025-10-05T12:00:00") (PStr "2025-10-05T11:00:00")
  /\ Inference.last_processed_timestamp
       (Inference.monitor_new_logs Samples.forest_only Samples.noon searches
          Inference.initial)
     = PStr "2025-10-05T11:00:00".
Proof.
  repeat split; try (vm_compute; reflexivity).
  intros [H|[_ H]]; [discriminate|]. vm_compute in H. apply H. reflexivity.
Qed.

Lemma watermark_never_moves_back_witness :
  Inference.not_after Samples.epoch
    (Inference.last_processed_timestamp
       (Inference.monitor_new_logs Samples.forest_only Samples.noon
          [Inference.es_search Samples.epoch Samples.store_one] Inference.initial))
    (Inference.last_processed_timestamp
       (Inference.monitor_new_logs Samples.forest_only Samples.noon
          [Inference.es_search Samples.epoch Samples.store_one;
           Inference.es_search Samples.epoch Samples.store_two] Inference.initial)).
Proof.
  refine (proj1 (proj2 (watermark_never_moves_back Samples.epoch Samples.forest_only
                          Samples.noon
                          [Inference.es_search Samples.epoch Samples.store_one;
                           Inference.es_search Samples.epoch Samples.store_two]
                          Inference.initial _ _)
                   [Inference.es_search Samples.epoch Samples.store_one]
                   [Inference.es_search Samples.epoch Samples.store_two] eq_refl)).
  - left. reflexivity.
  - vm_compute. repeat split.
Defined.

(** On the two sample stores the watermark goes from unset to 7 and then
    to 9. *)
Example sample_run_watermarks :
  Inference.watermark_trace Samples.forest_only Samples.noon
    (Inference.processed Samples.forest_only Samples.noon
       [Inference.es_search Samples.epoch Samples.store_one;
        Inference.es_search Samples.epoch Samples.store_two] Inference.initial)
    PNone
  = [PInt 3; PInt 5; PInt 7; PInt 8; PInt 9].
Proof. vm_compute. reflexivity. Qed.

(** ** realtime_ml_monitor.py *)

Section MonitorFacts.
Import Monitor.

(** With no scaler the feature vector has the thirteen entries of the
    schema, whatever the event holds. *)
Lemma engineer_features_length (self : engine) (now : clock) (event : dict) :
  scaler self = None -> length (engineer_features self now event) = 13%nat.
Proof.
  intros Hs. unfold engineer_features, engineer_features_body. rewrite Hs.
  destruct (event !! "@timestamp") as [ts|]; simpl;
    [destruct (to_datetime self ts) as [[[h d]|]|e]; simpl|];
    try reflexivity;
    (destruct (Alerting.py_lower (get event "http_user_agent" (PStr ""))); simpl;
     [|reflexivity];
     destruct (py_len (get event "http_user_agent" (PStr ""))); simpl; reflexivity).
Qed.

(** What the loop stores for a loaded detector. *)
Lemma lookup_run_models (self : engine) (features : list Q) (name : string) :
  run_models self features !! name
  = models self !! name ≫= run_model features name.
Proof. unfold run_models. apply map_lookup_imap. Qed.

(** [predict_anomaly] never takes its [except] branch. *)
Lemma predict_anomaly_no_error (self : engine) (now : clock) (event : dict) :
  error (predict_anomaly self now event) = None
  /\ model_predictions (predict_anomaly self now event)
     = Some (fst <$> run_models self (engineer_features self now event))
  /\ model_scores (predict_anomaly self now event)
     = Some (snd <$> run_models self (engineer_features self now event)).
Proof. repeat split. Qed.

(** C2, as stated, fails: the one-class SVM raises, yet it stays in the
    ensemble as a "normal" vote and is counted in the denominator; the score
    is 1/2 and the event is not flagged, where leaving the detector out
    would give 1/1. *)
Lemma failed_detector_counted :
  attempt (engineer_features Samples.half_failing Samples.noon ∅)
    "one_class_svm" Samples.failing = Some (Raise Samples.shape_error)
  /\ model_predictions (predict_anomaly Samples.half_failing Samples.noon ∅)
     = Some (<["isolation_forest" := (-1)%Z]> {["one_class_svm" := 1%Z]})
  /\ ensemble_score (predict_anomaly Samples.half_failing Samples.noon ∅) = (1 # 2)%Q
  /\ is_anomaly (predict_anomaly Samples.half_failing Samples.noon ∅) = false.
Proof.
  repeat split; vm_compute; reflexivity.
Qed.

(** C2, amended: a detector that raises during scoring never aborts
    [predict_anomaly]; it is kept in the ensemble as a "normal" vote
    (prediction 1, score 0.0): it adds nothing to the numerator of the
    majority vote but is counted in its denominator. *)
Theorem failed_detector_votes_normal (self : engine) (now : clock) (event : dict)
    (name : string) (m : model) (e : exn) :
  models self !! name = Some m ->
  attempt (engineer_features self now event) name m = Some (Raise e) ->
  error (predict_anomaly self now event) = None
  /\ exists (predictions : gmap string Z) (scores : gmap string Q),
       model_predictions (predict_anomaly self now event) = Some predictions
       /\ model_scores (predict_anomaly self now event) = Some scores
       /\ predictions !! name = Some 1%Z
       /\ scores !! name = Some 0%Q
       /\ anomaly_votes predictions = anomaly_votes (delete name predictions)
       /\ size predictions = S (size (delete name predictions))
       /\ ensemble_score (predict_anomaly self now event)
          = (inject_Z (Z.of_nat (anomaly_votes predictions))
             / inject_Z (Z.of_nat (size predictions)))%Q.
Proof.
  intros Hm Ha. split; [reflexivity|].
  set (results := run_models self (engineer_features self now event)).
  assert (Hr : results !! name = Some (1%Z, 0%Q)).
  { unfold results. rewrite lookup_run_models, Hm. simpl.
    unfold run_model. rewrite Ha. reflexivity. }
  assert (Hp : (fst <$> results) !! name = Some 1%Z)
    by (rewrite lookup_fmap, Hr; reflexivity).
  assert (Hsize : size (fst <$> results) = S (size (delete name (fst <$> results)))).
  { rewrite (map_size_delete name (fst <$> results)), Hp.
    assert (size (fst <$> results) <> 0%nat) as Hne.
    { intros H0. apply map_size_empty_iff in H0. rewrite H0 in Hp.
      rewrite lookup_empty in Hp. discriminate. }
    destruct (size (fst <$> results)); [contradiction | reflexivity]. }
  exists (fst <$> results), (snd <$> results).
  split; [reflexivity|]. split; [reflexivity|].
  split; [exact Hp|].
  split; [rewrite lookup_fmap, Hr; reflexivity|].
  split; [|split; [exact Hsize|]].
  - unfold anomaly_votes. rewrite map_filter_delete_not; [reflexivity|].
    intros y Hy. rewrite Hp in Hy. injection Hy as <-. simpl. discriminate.
  - unfold predict_anomaly, predict_anomaly_body. simpl. fold results.
    rewrite Hsize. reflexivity.
Qed.

Lemma failed_detector_votes_normal_witness :
  error (predict_anomaly Samples.half_failing Samples.noon ∅) = None
  /\ exists (predictions : gmap string Z) (scores : gmap string Q),
       model_predictions (predict_anomaly Samples.half_failing Samples.noon ∅)
       = Some predictions
       /\ model_scores (predict_anomaly Samples.half_failing Samples.noon ∅)
          = Some scores
       /\ predictions !! "one_class_svm" = Some 1%Z
       /\ scores !! "one_class_svm" = Some 0%Q
       /\ anomaly_votes predictions = anomaly_votes (delete "one_class_svm" predictions)
       /\ size predictions = S (size (delete "one_class_svm" predictions))
       /\ ensemble_score (predict_anomaly Samples.half_failing Samples.noon ∅)
          = (inject_Z (Z.of_nat (anomaly_votes predictions))
             / inject_Z (Z.of_nat (size predictions)))%Q.
Proof.
  apply (failed_detector_votes_normal Samples.half_failing Samples.noon ∅
           "one_class_svm" Samples.failing Samples.shape_error).
  - vm_compute. reflexivity.
  - vm_compute. reflexivity.
Defined.

(** C3, as stated, fails: no result carries a flag for the degraded state.
    When the only detector raises, [predict_anomaly] returns the very dict it
    returns when a healthy detector finds the event normal; and in
    [score_record] a failing isolation forest gives the error dict, which has
    no fused score at all. *)
Lemma degraded_state_not_flagged :
  attempt (engineer_features Samples.all_failing Samples.noon ∅)
    "isolation_forest" Samples.failing = Some (Raise Samples.shape_error)
  /\ attempt (engineer_features Samples.all_quiet Samples.noon ∅)
       "isolation_forest" Samples.quiet = Some (Ok (1%Z, 0%Q))
  /\ predict_anomaly Samples.all_failing Samples.noon ∅
     = predict_anomaly Samples.all_quiet Samples.noon ∅
  /\ Inference.keys
       (Inference.score_record Samples.forest_broken Samples.noon
          (Samples.get_request 5))
     = ["error"; "timestamp"].
Proof.
  repeat split; vm_compute; reflexivity.
Qed.

Lemma no_votes_when_no_verdict (self : engine) (features : list Q) :
  (forall (name : string) (m : model) (v : Z * Q),
      models self !! name = Some m -> attempt features name m <> Some (Ok v)) ->
  forall (name : string) (v : Z),
    (fst <$> run_models self features) !! name = Some v -> v = 1%Z.
Proof.
  intros H name v. rewrite lookup_fmap, lookup_run_models.
  destruct (models self !! name) as [m|] eqn:Hm; simpl; [|discriminate].
  unfold run_model. specialize (H name m).
  destruct (attempt features name m) as [[r|e]|]; simpl; try discriminate.
  - exfalso. apply (H r Hm). reflexivity.
  - intros E. injection E as <-. reflexivity.
Qed.

(** C3, amended: when no detector produces a verdict the fused score is 0,
    the event is not flagged and the risk level is LOW, and nothing is
    raised: in [predict_anomaly] whether no detector is loaded or every
    loaded one fails (each failure is stored as the "normal" vote 1), in
    [score_record] when no detector is loaded and the features could be
    prepared, where both per-detector dicts are empty.  The result has no
    separate field for the degraded state. *)
Theorem no_verdict_scores_zero (self : engine) (now : clock) (event : dict)
    (inference : Inference.engine) (record : dict) (x : list pyval) :
  (forall (name : string) (m : model) (v : Z * Q),
      models self !! name = Some m ->
      attempt (engineer_features self now event) name m <> Some (Ok v)) ->
  Inference.optimized_models inference = ∅ ->
  Inference._prepare_feature_vector inference record = Ok x ->
  (error (predict_anomaly self now event) = None
   /\ (ensemble_score (predict_anomaly self now event) == 0)%Q
   /\ is_anomaly (predict_anomaly self now event) = false
   /\ risk_level (predict_anomaly self now event) = LOW
   /\ forall (predictions : gmap string Z) (name : string) (v : Z),
        model_predictions (predict_anomaly self now event) = Some predictions ->
        predictions !! name = Some v -> v = 1%Z)
  /\ Inference.scores_of (Inference.score_record inference now record)
     = inl (∅, ∅, 0%Q, LOW, false).
Proof.
  intros Hnone Hempty Hx. split.
  - pose proof (no_votes_when_no_verdict self _ Hnone) as Hvotes.
    set (results := run_models self (engineer_features self now event)) in *.
    assert (Hv : anomaly_votes (fst <$> results) = 0%nat).
    { unfold anomaly_votes. apply map_size_empty_iff, map_empty. intros name.
      apply map_lookup_filter_None. right. intros v Hl Hp. simpl in Hp.
      apply Hvotes in Hl. lia. }
    assert (Hs : (ensemble_score (predict_anomaly self now event) == 0)%Q).
    { unfold predict_anomaly, predict_anomaly_body. simpl. fold results.
      rewrite Hv. destruct (0 <? size (fst <$> results))%nat; [|reflexivity].
      unfold Qdiv. apply Qmult_0_l. }
    split; [reflexivity|]. split; [exact Hs|]. split; [|split].
    + unfold predict_anomaly, predict_anomaly_body. simpl. fold results.
      rewrite Hv. reflexivity.
    + change (risk_level (predict_anomaly self now event))
        with (risk_of (ensemble_score (predict_anomaly self now event))).
      unfold risk_of. q_cases; try reflexivity; lra.
    + intros predictions name v Hp. injection Hp as <-. apply Hvotes.
  - unfold Inference.score_record, Inference.score_record_body.
    rewrite Hx. simpl.
    unfold Inference.score_with, Inference.score_lof. rewrite Hempty.
    rewrite !lookup_empty. reflexivity.
Qed.

Lemma no_verdict_scores_zero_witness :
  (ensemble_score (predict_anomaly Samples.all_failing Samples.noon ∅) == 0)%Q
  /\ Inference.scores_of
       (Inference.score_record Samples.no_models Samples.noon (Samples.get_request 5))
     = inl (∅, ∅, 0%Q, LOW, false).
Proof.
  refine ((fun H => conj (proj1 (proj2 (proj1 H))) (proj2 H))
            (no_verdict_scores_zero Samples.all_failing Samples.noon ∅
               Samples.no_models (Samples.get_request 5)
               [PInt 0; PInt 0; PInt 0; PInt 0; PInt 0; PInt 11; PInt 0; PInt 0; PInt 0]
               _ _ _)).
  - intros name m v Hm. unfold Samples.all_failing in Hm. cbn [models] in Hm.
    apply lookup_singleton_Some in Hm as [<- <-].
    vm_compute. discriminate.
  - reflexivity.
  - vm_compute. reflexivity.
Defined.

End MonitorFacts.

(** ** advanced_ml_detector.py *)

Section DetectorFacts.
Import Detector.
Local Open Scope R_scope.




(** *** The same expression in binary64 *)










End DetectorFacts.

(** * Further properties *)

(** ** ml_alerting_system.py: scores, tiers and counters *)

Section AlertingMore.
Import Alerting Reporting.

Ltac if_cases :=
  repeat match goal with
  | |- context [if ?b then _ else _] => destruct b
  end.

(** X1: the alerting score never exceeds 1, and it is not negative when
    the random draw is not. *)
Theorem risk_score_bounds (g : rng) (k : nat) (event : dict) (s : Q) :
  _calculate_risk_score g k event = Ok s ->
  (0 <= random_unit g k)%Q ->
  (0 <= s /\ s <= 1)%Q.
Proof.
  unfold _calculate_risk_score, uniform, py_min. intros H Hr.
  destruct (py_lower (get event "url" (PStr ""))) as [url|]; [|discriminate].
  destruct (py_lower (get event "user_agent" (PStr ""))) as [ua|]; [|discriminate].
  cbn [bind] in H.
  set (u := any_in _ url) in H. set (a := any_in _ ua) in H.
  set (m := py_in_strs _ _) in H. clearbody u a m.
  destruct (py_ge_int (get event "status_code" (PInt 200)) 400) as [bad|];
    [|discriminate].
  cbn [bind] in H. injection H as <-.
  destruct u, a, m, bad; q_cases; split; lra.
Qed.

Lemma risk_score_bounds_witness :
  (0 <= 3200 # 4000 /\ 3200 # 4000 <= 1)%Q.
Proof.
  apply (risk_score_bounds (Samples.fixed_rng (3 # 4)) 0 Samples.probe (3200 # 4000)).
  - reflexivity.
  - vm_compute. discriminate.
Defined.

Lemma no_risk_factor_score (g : rng) (k : nat) (event : dict) :
  no_risk_factor event = true ->
  (random_unit g k <= 1)%Q ->
  exists s, _calculate_risk_score g k event = Ok s /\ (s < 5 # 10)%Q.
Proof.
  unfold no_risk_factor, _calculate_risk_score, uniform, py_min. intros H Hr.
  destruct (py_lower (get event "url" (PStr ""))) as [url|]; [|discriminate].
  destruct (py_lower (get event "user_agent" (PStr ""))) as [ua|]; [|discriminate].
  destruct (py_ge_int (get event "status_code" (PInt 200)) 400) as [bad|];
    [|discriminate].
  apply andb_true_iff in H as [H H4]. apply andb_true_iff in H as [H H3].
  apply andb_true_iff in H as [H1 H2].
  apply negb_true_iff in H1, H2, H3, H4. subst bad. cbn [bind].
  rewrite H1, H2, H3. eexists. split; [reflexivity|].
  cbv iota zeta. q_cases; lra.
Qed.

Lemma scan_quiet_batch (now : clock) (g : rng) (batch : list dict) :
  Forall (fun e => ascii_text e = true /\ no_risk_factor e = true) batch ->
  (forall k, (random_unit g k <= 1)%Q) ->
  forall (acc : list anomaly) (st : state),
    scan_events default_thresholds now g batch acc st
    = (Ok acc, State (alert_counts st) (draws st + length batch)).
Proof.
  intros Hall Hr. induction Hall as [|e rest [_ He] Hrest IH]; intros acc st.
  - simpl. rewrite Nat.add_0_r. destruct st; reflexivity.
  - destruct (no_risk_factor_score g (draws st) e He (Hr _)) as [s [Hs Hlt]].
    rewrite (scan_events_step _ _ _ _ _ _ _ _ Hs).
    change (lookup_sev default_thresholds MEDIUM) with (5 # 10)%Q.
    apply Qle_bool_false in Hlt. rewrite Hlt, IH. simpl.
    do 2 f_equal. lia.
Qed.

(** X2: a batch of events whose URL and user agent are ASCII text and
    that match no risk factor raises no alert and leaves the counters
    alone: the random component alone stays below the MEDIUM threshold. *)
Theorem quiet_batch_no_alert (now : clock) (g : rng) (batch : list dict) (st : state) :
  batch <> [] ->
  Forall (fun e => ascii_text e = true /\ no_risk_factor e = true) batch ->
  (forall k, (random_unit g k <= 1)%Q) ->
  check_ml_anomalies default_thresholds now g (Some batch) st
  = ([], State (alert_counts st) (draws st + length batch)).
Proof.
  intros Hne Hall Hr. unfold check_ml_anomalies.
  destruct batch as [|e rest]; [contradiction|].
  rewrite (scan_quiet_batch now g (e :: rest) Hall Hr). reflexivity.
Qed.

Lemma quiet_batch_no_alert_witness :
  check_ml_anomalies default_thresholds Samples.noon (Samples.fixed_rng 1)
    (Some [Samples.page_view; ∅]) Samples.fresh
  = ([], State zero_counts 2).
Proof.
  apply (quiet_batch_no_alert Samples.noon (Samples.fixed_rng 1)
           [Samples.page_view; ∅] Samples.fresh).
  - discriminate.
  - repeat constructor.
  - intros k. vm_compute. discriminate.
Defined.

(** X3: with thresholds in order the tier grows with the score. *)
Theorem severity_monotone (th : by_severity Q) (s1 s2 : Q) :
  (medium th <= high th)%Q -> (high th <= critical th)%Q -> (s1 <= s2)%Q ->
  (rank (_get_severity_level th s1) <= rank (_get_severity_level th s2))%nat.
Proof.
  unfold _get_severity_level. simpl. intros Hmh Hhc Hs.
  q_cases; simpl; try lia; exfalso; lra.
Qed.

Lemma severity_monotone_witness :
  (rank (_get_severity_level default_thresholds (55 # 100))
   <= rank (_get_severity_level default_thresholds (95 # 100)))%nat.
Proof.
  apply severity_monotone; vm_compute; discriminate.
Defined.

(** X4: thresholds are taken as given; when the CRITICAL threshold is not
    above the HIGH one, no score is ever tiered HIGH. *)
Theorem high_unreachable (th : by_severity Q) (s : Q) :
  (critical th <= high th)%Q -> _get_severity_level th s <> HIGH.
Proof.
  unfold _get_severity_level. simpl. intros H.
  q_cases; try discriminate. exfalso. lra.
Qed.

Lemma high_unreachable_witness :
  _get_severity_level (BySeverity (6 # 10) (7 # 10) (5 # 10) (3 # 10)) (75 # 100) <> HIGH.
Proof.
  apply high_unreachable. vm_compute. discriminate.
Defined.

Lemma lookup_update_sev (d : by_severity nat) (s sev : severity) :
  lookup_sev (update_sev d s S) sev
  = (lookup_sev d sev + if severity_eqb s sev then 1 else 0)%nat.
Proof. destruct s, sev; simpl; lia. Qed.

Lemma count_severity_app (sev : severity) (l1 l2 : list anomaly) :
  count_severity sev (l1 ++ l2)
  = (count_severity sev l1 + count_severity sev l2)%nat.
Proof.
  unfold count_severity. rewrite List.filter_app, length_app. reflexivity.
Qed.

Lemma count_severity_one (sev : severity) (a : anomaly) :
  count_severity sev [a] = if severity_eqb (a_severity a) sev then 1%nat else 0%nat.
Proof. unfold count_severity. simpl. destruct (severity_eqb _ _); reflexivity. Qed.

(** The counters only grow during a scan, and a scan that ends normally
    has counted exactly what it added to the list. *)
Lemma scan_events_counts (th : by_severity Q) (now : clock) (g : rng)
    (data : list dict) :
  forall (acc : list anomaly) (st st' : state) (r : res (list anomaly)),
    scan_events th now g data acc st = (r, st') ->
    (forall sev, (lookup_sev (alert_counts st) sev
                  <= lookup_sev (alert_counts st') sev)%nat)
    /\ forall anomalies, r = Ok anomalies ->
         exists added,
           anomalies = acc ++ added
           /\ forall sev, lookup_sev (alert_counts st') sev
                          = (lookup_sev (alert_counts st) sev
                             + count_severity sev added)%nat.
Proof.
  induction data as [|event rest IH]; intros acc st st' r H.
  - simpl in H. injection H as <- <-. split; [intros; lia|].
    intros anomalies E. injection E as <-. exists [].
    split; [by rewrite app_nil_r | intros; unfold count_severity; simpl; lia].
  - destruct (_calculate_risk_score g (draws st) event) as [s|e] eqn:Hs.
    + rewrite (scan_events_step _ _ _ _ _ _ _ _ Hs) in H.
      destruct (Qle_bool (lookup_sev th MEDIUM) s).
      * apply IH in H as [Hle Hok]. simpl in Hle, Hok. split.
        -- intros sev. specialize (Hle sev). rewrite lookup_update_sev in Hle. lia.
        -- intros anomalies E. destruct (Hok anomalies E) as [added [-> Hc]].
           eexists (_ :: added). split; [by rewrite <- app_assoc|].
           intros sev. rewrite Hc, lookup_update_sev.
           change (?a :: added) with ([a] ++ added).
           rewrite count_severity_app, count_severity_one. simpl. lia.
      * apply IH in H as [Hle Hok]. simpl in Hle, Hok. split; assumption.
    + simpl in H. rewrite Hs in H. injection H as <- <-.
      split; [intros; lia | discriminate].
Qed.

Lemma synthetic_loop_counts (th : by_severity Q) (now : clock) (g : rng) (n : nat) :
  forall (acc : list anomaly) (st : state),
    exists added,
      fst (synthetic_loop th now g n acc st) = acc ++ added
      /\ length added = n
      /\ draws (snd (synthetic_loop th now g n acc st)) = (draws st + 6 * n)%nat
      /\ forall sev,
           lookup_sev (alert_counts (snd (synthetic_loop th now g n acc st))) sev
           = (lookup_sev (alert_counts st) sev + count_severity sev added)%nat.
Proof.
  induction n as [|n IH]; intros acc st.
  - exists []. simpl. rewrite app_nil_r.
    repeat split; unfold count_severity; simpl; lia.
  - cbn [synthetic_loop]. set (a := synthetic_anomaly th now g (draws st)).
    destruct (IH (acc ++ [a])
                 (State (update_sev (alert_counts st) (a_severity a) S)
                        (draws st + 6))) as [added [E [Hl [Hd Hc]]]].
    exists (a :: added).
    rewrite E, Hd. split; [by rewrite <- app_assoc|].
    split; [simpl; lia|]. split; [simpl; lia|].
    intros sev. rewrite Hc. cbn [alert_counts]. rewrite lookup_update_sev.
    change (a :: added) with ([a] ++ added).
    rewrite count_severity_app, count_severity_one. lia.
Qed.

Lemma synthetic_counts (th : by_severity Q) (now : clock) (g : rng) (st : state) :
  forall sev,
    lookup_sev (alert_counts (snd (_generate_synthetic_anomalies th now g st))) sev
    = (lookup_sev (alert_counts st) sev
       + count_severity sev (fst (_generate_synthetic_anomalies th now g st)))%nat.
Proof.
  intros sev. unfold _generate_synthetic_anomalies.
  destruct (synthetic_loop_counts th now g (Z.to_nat (randint g (draws st) 1 5)) []
              (State (alert_counts st) (S (draws st)))) as [added [E [_ [_ Hc]]]].
  rewrite Hc, E. reflexivity.
Qed.

(** X5: whatever path [check_ml_anomalies] takes, each counter grows by at
    least the number of returned anomalies of that severity. *)
Theorem alert_counts_cover_result (th : by_severity Q) (now : clock) (g : rng)
    (es_utility : option (list dict)) (st : state) (sev : severity) :
  (lookup_sev (alert_counts st) sev
   + count_severity sev (fst (check_ml_anomalies th now g es_utility st))
   <= lookup_sev (alert_counts (snd (check_ml_anomalies th now g es_utility st))) sev)%nat.
Proof.
  unfold check_ml_anomalies.
  destruct es_utility as [[|event rest]|]; try (rewrite synthetic_counts; lia).
  destruct (scan_events th now g (event :: rest) [] st) as [[anomalies|e] st'] eqn:H;
    apply scan_events_counts in H as [Hle Hok].
  - destruct (Hok anomalies eq_refl) as [added [-> Hc]]. simpl. rewrite Hc. lia.
  - rewrite synthetic_counts. specialize (Hle sev). lia.
Qed.

Lemma well_typed_scored (g : rng) (k : nat) (event : dict) :
  raised (_calculate_risk_score g k event) = negb (well_typed event).
Proof.
  unfold _calculate_risk_score, well_typed.
  destruct (py_lower (get event "url" (PStr ""))); [|reflexivity].
  destruct (py_lower (get event "user_agent" (PStr ""))); [|reflexivity].
  simpl. destruct (py_ge_int (get event "status_code" (PInt 200)) 400); reflexivity.
Qed.

(** X6: one event that cannot be scored (a URL or user agent that is not
    a string, a status that is not a number) makes [check_ml_anomalies] drop
    the alerts found so far and return synthetic ones instead, while the
    counters keep the dropped alerts. *)
Theorem ill_typed_event_discards_batch (th : by_severity Q) (now : clock) (g : rng)
    (before after : list dict) (bad : dict) (st st1 : state) (found : list anomaly) :
  scan_events th now g before [] st = (Ok found, st1) ->
  well_typed bad = false ->
  check_ml_anomalies th now g (Some (before ++ bad :: after)) st
  = _generate_synthetic_anomalies th now g st1
  /\ forall sev, lookup_sev (alert_counts st1) sev
                 = (lookup_sev (alert_counts st) sev + count_severity sev found)%nat.
Proof.
  intros Hb Hbad. split.
  - unfold check_ml_anomalies.
    assert (E : scan_events th now g (before ++ bad :: after) [] st
                = (match _calculate_risk_score g (draws st1) bad with
                   | Ok _ => (Ok [], st1)
                   | Raise e => (Raise e, st1)
                   end)).
    { rewrite scan_events_app, Hb. simpl.
      pose proof (well_typed_scored g (draws st1) bad) as Hr. rewrite Hbad in Hr.
      destruct (_calculate_risk_score g (draws st1) bad); [discriminate | reflexivity]. }
    pose proof (well_typed_scored g (draws st1) bad) as Hr. rewrite Hbad in Hr.
    rewrite E. destruct (_calculate_risk_score g (draws st1) bad); [discriminate|].
    destruct before; reflexivity.
  - apply scan_events_counts in Hb as [_ Hok].
    destruct (Hok found eq_refl) as [added [E Hc]]. simpl in E. subst added. exact Hc.
Qed.

End AlertingMore.

Section ReportingFacts.
Import Alerting Reporting.

Lemma ill_typed_event_discards_batch_witness :
  check_ml_anomalies default_thresholds Samples.noon (Samples.fixed_rng (3 # 4))
    (Some [Samples.probe; Scenarios.numeric_url; Samples.page_view]) Samples.fresh
  = _generate_synthetic_anomalies default_thresholds Samples.noon
      (Samples.fixed_rng (3 # 4)) (State (BySeverity 0%nat 1%nat 0%nat 0%nat) 1).
Proof.
  refine (proj1 (ill_typed_event_discards_batch default_thresholds Samples.noon
                   (Samples.fixed_rng (3 # 4)) [Samples.probe] [Samples.page_view]
                   Scenarios.numeric_url Samples.fresh
                   (State (BySeverity 0%nat 1%nat 0%nat 0%nat) 1)
                   [anomaly_of_event Samples.noon Samples.probe (3200 # 4000) HIGH]
                   _ _)); vm_compute; reflexivity.
Defined.

Lemma synthetic_anomaly_shape (now : clock) (g : rng) (k : nat) :
  (0 <= random_unit g k)%Q ->
  ((5 # 10) <= a_risk_score (synthetic_anomaly default_thresholds now g k))%Q
  /\ a_severity (synthetic_anomaly default_thresholds now g k) <> LOW
  /\ threat_level (synthetic_anomaly default_thresholds now g k)
     = PStr (severity_name (a_severity (synthetic_anomaly default_thresholds now g k)))
  /\ a_timestamp (synthetic_anomaly default_thresholds now g k) = PStr (isoformat now).
Proof.
  intros Hr.
  assert (H : ((5 # 10) <= uniform g k (5 # 10) 1)%Q) by (unfold uniform; lra).
  split; [exact H|]. split; [|split; reflexivity].
  unfold synthetic_anomaly. cbn [a_severity]. apply severity_not_low. exact H.
Qed.

Lemma synthetic_loop_shape (now : clock) (g : rng) (n : nat) :
  (forall k, (0 <= random_unit g k)%Q) ->
  forall (acc : list anomaly) (st : state),
    exists added,
      fst (synthetic_loop default_thresholds now g n acc st) = acc ++ added
      /\ Forall (fun a => ((5 # 10) <= a_risk_score a)%Q
                          /\ a_severity a <> LOW
                          /\ threat_level a = PStr (severity_name (a_severity a))
                          /\ a_timestamp a = PStr (isoformat now)) added.
Proof.
  intros Hr. induction n as [|n IH]; intros acc st.
  - exists []. simpl. rewrite app_nil_r. split; [reflexivity | constructor].
  - cbn [synthetic_loop]. set (a := synthetic_anomaly default_thresholds now g (draws st)).
    destruct (IH (acc ++ [a])
                 (State (update_sev (alert_counts st) (a_severity a) S)
                        (draws st + 6))) as [added [E Hall]].
    exists (a :: added). rewrite E. split; [by rewrite <- app_assoc|].
    constructor; [apply synthetic_anomaly_shape, Hr | exact Hall].
Qed.

(** X7: when no data is at hand the stand-in anomalies number between one
    and five, each scores at least 0.5, is tiered MEDIUM or higher, repeats
    its tier as threat level and carries the current time; the call uses one
    draw for the count and six per anomaly. *)
Theorem synthetic_anomalies_shape (now : clock) (g : rng) (st : state) :
  (forall k, (0 <= random_unit g k)%Q) ->
  (0 <= randbelow g (draws st) 5 < 5)%Z ->
  (1 <= length (fst (_generate_synthetic_anomalies default_thresholds now g st)) <= 5)%nat
  /\ Forall (fun a => ((5 # 10) <= a_risk_score a)%Q
                      /\ a_severity a <> LOW
                      /\ threat_level a = PStr (severity_name (a_severity a))
                      /\ a_timestamp a = PStr (isoformat now))
       (fst (_generate_synthetic_anomalies default_thresholds now g st))
  /\ draws (snd (_generate_synthetic_anomalies default_thresholds now g st))
     = (draws st + 1
        + 6 * length (fst (_generate_synthetic_anomalies default_thresholds now g st)))%nat.
Proof.
  intros Hr Hb. unfold _generate_synthetic_anomalies.
  set (n := Z.to_nat (randint g (draws st) 1 5)).
  assert (Hn : (1 <= n <= 5)%nat).
  { unfold n, randint. change (5 - 1 + 1)%Z with 5%Z. lia. }
  destruct (synthetic_loop_counts default_thresholds now g n []
              (State (alert_counts st) (S (draws st)))) as [added [E [Hl [Hd _]]]].
  destruct (synthetic_loop_shape now g n Hr []
              (State (alert_counts st) (S (draws st)))) as [added' [E' Hall]].
  rewrite E' in E. simpl in E. subst added'.
  rewrite E', Hd. simpl. rewrite Hl. repeat split; try lia. exact Hall.
Qed.

Lemma synthetic_anomalies_shape_witness :
  (1 <= length (fst (_generate_synthetic_anomalies default_thresholds Samples.noon
                       Scenarios.steady Samples.fresh)) <= 5)%nat.
Proof.
  refine (proj1 (synthetic_anomalies_shape Samples.noon Scenarios.steady
                   Samples.fresh _ _)).
  - intros k. vm_compute. discriminate.
  - vm_compute. split; [discriminate | reflexivity].
Defined.

Lemma any_severity_spec (sev : severity) (anomalies : list anomaly) :
  any_severity sev anomalies = true <-> exists a, In a anomalies /\ a_severity a = sev.
Proof.
  unfold any_severity. rewrite existsb_exists. split; intros [a [Hin H]]; exists a.
  - split; [exact Hin|]. destruct (a_severity a), sev; try discriminate; reflexivity.
  - split; [exact Hin|]. rewrite H. destruct sev; reflexivity.
Qed.

(** X8: the severity chosen for the console alert is the highest severity
    among the anomalies: none ranks above it, and some anomaly has it unless
    it is LOW. *)
Theorem max_severity_is_maximum (anomalies : list anomaly) :
  (forall a, In a anomalies -> (rank (a_severity a) <= rank (max_severity anomalies))%nat)
  /\ (max_severity anomalies <> LOW ->
      exists a, In a anomalies /\ a_severity a = max_severity anomalies).
Proof.
  unfold max_severity.
  destruct (any_severity CRITICAL anomalies) eqn:Hc.
  { split; [intros a _; destruct (a_severity a); simpl; lia|].
    intros _. by apply any_severity_spec. }
  destruct (any_severity HIGH anomalies) eqn:Hh.
  { split; [|intros _; by apply any_severity_spec].
    intros a Hin. destruct (a_severity a) eqn:Ha; simpl; try lia.
    assert (any_severity CRITICAL anomalies = true)
      by (apply any_severity_spec; eauto). congruence. }
  destruct (any_severity MEDIUM anomalies) eqn:Hm.
  { split; [|intros _; by apply any_severity_spec].
    intros a Hin. destruct (a_severity a) eqn:Ha; simpl; try lia.
    - assert (any_severity CRITICAL anomalies = true)
        by (apply any_severity_spec; eauto). congruence.
    - assert (any_severity HIGH anomalies = true)
        by (apply any_severity_spec; eauto). congruence. }
  split; [|intros H; contradiction].
  intros a Hin. destruct (a_severity a) eqn:Ha; simpl; try lia.
  - assert (any_severity CRITICAL anomalies = true)
      by (apply any_severity_spec; eauto). congruence.
  - assert (any_severity HIGH anomalies = true)
      by (apply any_severity_spec; eauto). congruence.
  - assert (any_severity MEDIUM anomalies = true)
      by (apply any_severity_spec; eauto). congruence.
Qed.

Lemma insert_by_score_perm (a : anomaly) (l : list anomaly) :
  Permutation (insert_by_score a l) (a :: l).
Proof.
  induction l as [|b l IH]; [reflexivity|]. simpl.
  destruct (Qlt_bool (a_risk_score a) (a_risk_score b)); [|reflexivity].
  rewrite IH. apply perm_swap.
Qed.

Lemma insert_by_score_sorted (a : anomaly) (l : list anomaly) :
  StronglySorted not_below l -> StronglySorted not_below (insert_by_score a l).
Proof.
  induction l as [|b l IH]; intros Hs; [repeat constructor|]. simpl.
  apply StronglySorted_inv in Hs as [Hs Hb].
  destruct (Qlt_bool (a_risk_score a) (a_risk_score b)) eqn:E.
  - apply Qlt_bool_iff in E. constructor; [by apply IH|].
    apply (Permutation_Forall (x := a :: l)).
    + symmetry. apply insert_by_score_perm.
    + constructor; [unfold not_below; lra | exact Hb].
  - assert (Hab : (a_risk_score b <= a_risk_score a)%Q).
    { unfold Qlt_bool in E. apply negb_false_iff, Qle_bool_iff in E. exact E. }
    constructor; [constructor; assumption|].
    constructor; [exact Hab|].
    eapply List.Forall_impl; [|exact Hb]. unfold not_below. intros x Hx. lra.
Qed.

Lemma sorted_by_score_perm (l : list anomaly) : Permutation (sorted_by_score l) l.
Proof.
  induction l as [|a l IH]; [reflexivity|]. simpl.
  rewrite insert_by_score_perm. by constructor.
Qed.

Lemma sorted_by_score_sorted (l : list anomaly) :
  StronglySorted not_below (sorted_by_score l).
Proof.
  induction l as [|a l IH]; [constructor|]. simpl. by apply insert_by_score_sorted.
Qed.

Lemma StronglySorted_app_inv {A : Type} (R : A -> A -> Prop) (l1 l2 : list A) :
  StronglySorted R (l1 ++ l2) ->
  StronglySorted R l1 /\ forall a b, In a l1 -> In b l2 -> R a b.
Proof.
  induction l1 as [|x l1 IH]; intros H.
  - split; [constructor | intros a b []].
  - simpl in H. apply StronglySorted_inv in H as [H Hx].
    destruct (IH H) as [Hs Hc]. split.
    + constructor; [exact Hs|]. apply List.Forall_app in Hx. tauto.
    + intros a b [<-|Ha] Hb; [|by apply Hc].
      rewrite List.Forall_forall in Hx. apply Hx, in_or_app. by right.
Qed.

(** X9: the threats listed in the alert message and in the log entry are
    the [n] highest-scoring anomalies, highest first: the list has
    [min n (len anomalies)] entries, is sorted by falling score, and together
    with the anomalies left out it is a rearrangement of the input in which
    nothing left out scores above anything listed. *)
Theorem top_threats_highest (n : nat) (anomalies : list anomaly) :
  length (top_threats n anomalies) = Nat.min n (length anomalies)
  /\ StronglySorted not_below (top_threats n anomalies)
  /\ exists rest,
       Permutation (top_threats n anomalies ++ rest) anomalies
       /\ forall a b, In a (top_threats n anomalies) -> In b rest -> not_below a b.
Proof.
  unfold top_threats.
  pose proof (sorted_by_score_sorted anomalies) as Hs.
  rewrite <- (firstn_skipn n (sorted_by_score anomalies)) in Hs.
  apply StronglySorted_app_inv in Hs as [Hs Hc].
  split; [|split; [exact Hs|]].
  - rewrite length_firstn, (Permutation_length (sorted_by_score_perm anomalies)).
    reflexivity.
  - exists (skipn n (sorted_by_score anomalies)). split; [|exact Hc].
    rewrite firstn_skipn. apply sorted_by_score_perm.
Qed.

End ReportingFacts.

(** ** realtime_ml_inference.py: features and the ensemble *)

Section FeatureFacts.
Import Inference Schema.

Lemma lookup_insert_eqb (df : dict) (i k : string) (x : pyval) :
  <[i := x]> df !! k = if String.eqb i k then Some x else df !! k.
Proof.
  destruct (String.eqb_spec i k) as [->|Hne].
  - apply lookup_insert_eq.
  - by apply lookup_insert_ne.
Qed.

Lemma lookup_ensure_column (col k : string) (df : dict) :
  ensure_column col df !! k
  = match df !! k with
    | Some v => Some v
    | None => if String.eqb col k then Some (PInt 0) else None
    end.
Proof.
  unfold ensure_column.
  destruct (String.eqb_spec col k) as [->|Hne].
  - destruct (df !! k) as [v|] eqn:E; [by rewrite E | by rewrite lookup_insert_eq].
  - destruct (df !! col) as [v|] eqn:E; [by destruct (df !! k)|].
    rewrite lookup_insert_ne by done. by destruct (df !! k).
Qed.

(** The required columns are filled in where they are missing, and only
    there. *)
Lemma lookup_ensure_columns (cols : list string) (k : string) :
  forall df : dict,
    fold_left (fun d col => ensure_column col d) cols df !! k
    = match df !! k with
      | Some v => Some v
      | None => if existsb (fun col => String.eqb col k) cols then Some (PInt 0) else None
      end.
Proof.
  induction cols as [|col cols IH]; intros df; simpl; [by destruct (df !! k)|].
  rewrite IH, lookup_ensure_column.
  destruct (df !! k); [reflexivity|].
  destruct (String.eqb col k); simpl; [reflexivity|].
  reflexivity.
Qed.

Lemma select_columns_ext (df df' : dict) (cols : list string) :
  (forall c, In c cols -> df !! c = df' !! c) ->
  select_columns df cols = select_columns df' cols.
Proof.
  induction cols as [|c cols IH]; intros H; [reflexivity|].
  simpl. rewrite (H c (or_introl eq_refl)), IH; [reflexivity|].
  intros c' Hc'. apply H. by right.
Qed.

Ltac eval_tests :=
  repeat match goal with
  | |- context [String.eqb ?a ?b] =>
      let r := eval vm_compute in (String.eqb a b) in
      change (String.eqb a b) with r
  | |- context [existsb ?f ?l] =>
      let r := eval vm_compute in (existsb f l) in
      change (existsb f l) with r
  end.

Lemma fillna0_method_code (v : pyval) : fillna0 (method_code v) = method_code v.
Proof.
  unfold method_code. destruct v; try reflexivity.
  repeat match goal with
         | |- context [if ?b then _ else _] => destruct b
         end; reflexivity.
Qed.

Lemma fillna0_str_len (c : option string) : fillna0 (str_len c) = str_len c.
Proof. destruct c; reflexivity. Qed.

Lemma fillna0_str_contains (alts : list string) (c : option string) :
  fillna0 (str_contains alts c) = str_contains alts c.
Proof.
  unfold str_contains. destruct c as [s|]; [|reflexivity].
  destruct (any_in _ _); reflexivity.
Qed.

Ltac frame_lookups :=
  cbn [bind select_columns default_feature_columns];
  rewrite !lookup_ensure_columns, !lookup_insert_eqb;
  eval_tests; cbv iota; unfold required, get.

Ltac frame_done :=
  repeat match goal with
         | |- context [match ?r !! ?k with _ => _ end] => destruct (r !! k)
         end;
  cbn [bind];
  rewrite ?fillna0_method_code, ?fillna0_str_len, ?fillna0_str_contains;
  reflexivity.

(** The one-row frame after the derived and the required columns are set,
    read at the columns of the default schema. *)
Lemma engineer_default (self : engine) (record : dict) :
  feature_columns self = [] ->
  _engineer_features_single_record self record
  = (m <- method_encoded record ;;
     c <- match url_cell record with
          | Some v => str_accessor v
          | None => Ok None
          end ;;
     Ok [required record "status"; required record "size";
         required record "risk_score"; required record "response_time";
         m; str_len c; str_contains ["<script>"] c;
         str_contains ["'"; "--"; "union"; "select"] c;
         str_contains ["../"] c])%res.
Proof.
  intros Hcols. unfold _engineer_features_single_record, url_cell. rewrite Hcols.
  unfold method_encoded.
  destruct (record !! "method") as [v|]; [|reflexivity]. cbn [bind].
  set (m := method_code v).
  rewrite (lookup_insert_ne record "method_encoded" "url" m) by done.
  destruct (record !! "url") as [u|] eqn:Eu.
  - rewrite (lookup_insert_ne record "method_encoded" "url" m), Eu by done.
    destruct (str_accessor u) as [c|e]; [|reflexivity].
    frame_lookups. unfold m. frame_done.
  - rewrite (lookup_insert_ne record "method_encoded" "url_path" m) by done.
    destruct (record !! "url_path") as [u|] eqn:Ep.
    + destruct (str_accessor u) as [c|e]; [|reflexivity].
      frame_lookups. unfold m. frame_done.
    + frame_lookups. unfold m. frame_done.
Qed.

End FeatureFacts.

Section EnsembleFacts.
Import Inference Schema.

(** X10: with the default schema the feature engineer fails exactly on the
    records that lack a ['method'] field or whose URL cell is neither a
    string nor [None]; every vector it returns has nine entries. *)
Theorem feature_engineer_accepts (self : engine) (record : dict) :
  feature_columns self = [] ->
  raised (_engineer_features_single_record self record) = negb (engineerable record)
  /\ forall v, _engineer_features_single_record self record = Ok v -> length v = 9%nat.
Proof.
  intros Hcols. rewrite (engineer_default self record Hcols).
  unfold method_encoded, engineerable.
  destruct (record !! "method") as [m|]; [|split; [reflexivity | discriminate]].
  cbn [bind].
  destruct (url_cell record) as [[| | | |]|]; cbn [bind str_accessor raised negb];
    split; try reflexivity; try discriminate;
    intros v E; injection E as <-; reflexivity.
Qed.

Lemma feature_engineer_accepts_witness :
  raised (_engineer_features_single_record Samples.forest_only
            (<["method" := PStr "GET"]> (<["url" := PInt 7]> ∅)))
  = true.
Proof.
  refine (proj1 (feature_engineer_accepts Samples.forest_only
                   (<["method" := PStr "GET"]> (<["url" := PInt 7]> ∅)) _)).
  reflexivity.
Defined.

(** X11: with the default schema the features depend on the record only
    through the seven fields the schema reads; any other field, a derived
    column such as ['has_sql'] or ['url_length'] included, has no effect. *)
Theorem features_read_schema_inputs (self : engine) (r1 r2 : dict) :
  feature_columns self = [] ->
  (forall k, In k schema_inputs -> r1 !! k = r2 !! k) ->
  _engineer_features_single_record self r1 = _engineer_features_single_record self r2.
Proof.
  intros Hcols H. rewrite !(engineer_default self _ Hcols).
  unfold method_encoded, url_cell, required, get.
  rewrite !(H "method"), !(H "url"), !(H "url_path"), !(H "status"), !(H "size"),
    !(H "risk_score"), !(H "response_time") by (simpl; tauto).
  reflexivity.
Qed.

Lemma features_read_schema_inputs_witness :
  _engineer_features_single_record Samples.forest_only
    (<["has_sql" := PInt 1]> (<["client_ip" := PStr "10.0.0.1"]> (Samples.get_request 5)))
  = _engineer_features_single_record Samples.forest_only (Samples.get_request 5).
Proof.
  apply features_read_schema_inputs; [reflexivity|].
  intros k Hk. simpl in Hk.
  repeat (destruct Hk as [<-|Hk]; [vm_compute; reflexivity|]). contradiction.
Defined.

Lemma sum_values_insert (m : gmap string Z) (i : string) (x : Z) :
  m !! i = None -> sum_values (<[i := x]> m) = (x + sum_values m)%Z.
Proof.
  intros H. unfold sum_values.
  apply (map_fold_insert_L (fun _ v acc => (v + acc)%Z)); [intros; lia | exact H].
Qed.

(** A dict of 0/1 votes: its sum counts the ones. *)
Lemma sum_values_votes (m : gmap string Z) :
  (forall i x, m !! i = Some x -> x = 0%Z \/ x = 1%Z) ->
  (0 <= sum_values m <= Z.of_nat (size m))%Z
  /\ (sum_values m = Z.of_nat (size m) <-> forall i x, m !! i = Some x -> x = 1%Z)
  /\ (sum_values m = 0%Z <-> forall i x, m !! i = Some x -> x = 0%Z).
Proof.
  induction m as [|i x m Hi IH] using map_ind; intros Hb.
  - rewrite map_size_empty. unfold sum_values. rewrite map_fold_empty.
    split; [lia|]. split; (split; [intros _ j y Hj; by rewrite lookup_empty in Hj | reflexivity]).
  - rewrite (sum_values_insert m i x Hi), (map_size_insert_None i x m Hi).
    assert (Hx : x = 0%Z \/ x = 1%Z) by (apply (Hb i), lookup_insert_eq).
    assert (Hrest : forall j y, m !! j = Some y -> <[i:=x]> m !! j = Some y).
    { intros j y Hj. rewrite lookup_insert_ne; [exact Hj|]. intros ->. congruence. }
    destruct IH as [Hr [H1 H0]]; [intros j y Hj; apply (Hb j); by apply Hrest|].
    split; [lia|]. split; split.
    + intros Hs j y Hj. destruct (decide (i = j)) as [->|Hne].
      * rewrite lookup_insert_eq in Hj. injection Hj as <-. lia.
      * rewrite lookup_insert_ne in Hj by done.
        assert (Hm : sum_values m = Z.of_nat (size m)) by lia.
        exact (proj1 H1 Hm j y Hj).
    + intros Hall.
      assert (x = 1%Z) by (apply (Hall i), lookup_insert_eq).
      assert (sum_values m = Z.of_nat (size m))
        by (apply H1; intros j y Hj; apply (Hall j); by apply Hrest).
      lia.
    + intros Hs j y Hj. destruct (decide (i = j)) as [->|Hne].
      * rewrite lookup_insert_eq in Hj. injection Hj as <-. lia.
      * rewrite lookup_insert_ne in Hj by done.
        assert (Hm : sum_values m = 0%Z) by lia.
        exact (proj1 H0 Hm j y Hj).
    + intros Hall.
      assert (x = 0%Z) by (apply (Hall i), lookup_insert_eq).
      assert (sum_values m = 0%Z)
        by (apply H0; intros j y Hj; apply (Hall j); by apply Hrest).
      lia.
Qed.

Lemma vote_binary (pred : Z) : vote pred = 0%Z \/ vote pred = 1%Z.
Proof. unfold vote. destruct (pred =? -1)%Z; [right | left]; reflexivity. Qed.

Lemma insert_vote_inv (name : string) (p : Z) (s : Q) (acc : votes) :
  (p = 0%Z \/ p = 1%Z) ->
  ((forall i x, fst acc !! i = Some x -> x = 0%Z \/ x = 1%Z) ->
   forall i x, <[name := p]> (fst acc) !! i = Some x -> x = 0%Z \/ x = 1%Z)
  /\ (size (<[name := p]> (fst acc)) <= S (size (fst acc)))%nat
  /\ (dom (snd acc) = dom (fst acc) ->
      dom (<[name := s]> (snd acc)) = dom (<[name := p]> (fst acc))).
Proof.
  intros Hp. split; [|split].
  - intros Hb i x. destruct (decide (name = i)) as [->|Hne].
    + rewrite lookup_insert_eq. intros E. injection E as <-. exact Hp.
    + rewrite lookup_insert_ne by done. apply Hb.
  - destruct (fst acc !! name) eqn:E.
    + rewrite map_size_insert_Some by (rewrite E; eauto). lia.
    + rewrite map_size_insert_None by exact E. lia.
  - intros Hd. rewrite !dom_insert_L, Hd. reflexivity.
Qed.

End EnsembleFacts.

Section VerdictFacts.
Import Inference Schema.

Lemma score_with_voted (name : string) (self : engine) (x : list pyval)
    (acc acc' : votes) (n : nat) :
  score_with name self x acc = Ok acc' -> well_voted n acc -> well_voted (S n) acc'.
Proof.
  unfold score_with, well_voted. intros H [Hb [Hs Hd]].
  destruct (optimized_models self !! name) as [m|].
  - destruct (call_predict m x) as [pred|]; [|discriminate]. cbn [bind] in H.
    destruct (decision_function m x) as [score|]; [|discriminate]. cbn [bind] in H.
    injection H as <-. cbn [fst snd].
    destruct (insert_vote_inv name (vote pred) score acc (vote_binary pred))
      as [H1 [H2 H3]].
    split; [by apply H1|]. split; [lia | by apply H3].
  - injection H as <-. split; [exact Hb|]. split; [lia | exact Hd].
Qed.

Lemma score_lof_voted (self : engine) (x : list pyval) (acc : votes) (n : nat) :
  well_voted n acc -> well_voted (S n) (score_lof self x acc).
Proof.
  unfold score_lof, well_voted. intros [Hb [Hs Hd]].
  destruct (optimized_models self !! "lof_detector") as [m|];
    [|split; [exact Hb|]; split; [lia | exact Hd]].
  destruct (match predict m with Some f => f x | None => Ok (-1)%Z end) as [pred|e];
    cbn [fst snd].
  - destruct (insert_vote_inv "lof_detector" (vote pred)
                (if (pred =? -1)%Z then (-1)%Q else 1%Q) acc (vote_binary pred))
      as [H1 [H2 H3]].
    split; [by apply H1|]. split; [lia | by apply H3].
  - destruct (insert_vote_inv "lof_detector" 0%Z 1%Q acc (or_introl eq_refl))
      as [H1 [H2 H3]].
    split; [by apply H1|]. split; [lia | by apply H3].
Qed.

(** The verdict reports what the three blocks stored. *)
Lemma scored_inv (self : engine) (now : clock) (record : dict) (v : verdict) :
  score_record self now record = Scored v ->
  well_voted 3 (individual_predictions v, individual_scores v)
  /\ ensemble_score v = ensemble (individual_predictions v)
  /\ risk_level v = risk_of (ensemble (individual_predictions v))
  /\ is_anomaly v = Qlt_bool (5 # 10) (ensemble (individual_predictions v)).
Proof.
  unfold score_record, score_record_body.
  destruct (_prepare_feature_vector self record) as [x|e]; cbn [bind catch];
    [|discriminate].
  destruct (score_with "isolation_forest" self x (∅, ∅)) as [a1|e] eqn:E1;
    cbn [bind catch]; [|discriminate].
  destruct (score_with "one_class_svm" self x a1) as [a2|e] eqn:E2;
    cbn [bind catch]; [|discriminate].
  intros H. injection H as <-. cbn.
  split; [|repeat split].
  assert (H0 : well_voted 0 ((∅, ∅) : votes)).
  { split; [intros i y Hy; cbn [fst] in Hy; by rewrite lookup_empty in Hy|].
    cbn [fst snd]. split; [by rewrite map_size_empty | by rewrite !dom_empty_L]. }
  pose proof (score_lof_voted self x a2 2
                (score_with_voted _ _ _ _ _ 1 E2 (score_with_voted _ _ _ _ _ 0 E1 H0)))
    as H3.
  destruct (score_lof self x a2) as [p s]. exact H3.
Qed.

Ltac decide_left H :=
  match type of H with
  | (?a <-> ?b) =>
      first
        [ assert a by lia; assert b by (apply H; assumption)
        | assert (~ a) by lia;
          assert (~ b) by (let Hb := fresh in intros Hb; apply H in Hb; contradiction) ]
  end.

(** The fused score of at most three 0/1 votes, case by case. *)
Lemma ensemble_casework (m : gmap string Z) :
  (forall i x, m !! i = Some x -> x = 0%Z \/ x = 1%Z) ->
  (size m <= 3)%nat ->
  (0 <= ensemble m <= 1)%Q
  /\ (Qlt_bool (5 # 10) (ensemble m) = true ->
      risk_of (ensemble m) = HIGH \/ risk_of (ensemble m) = CRITICAL)
  /\ (risk_of (ensemble m) = CRITICAL <->
      m <> ∅ /\ forall i x, m !! i = Some x -> x = 1%Z)
  /\ (risk_of (ensemble m) = LOW <-> forall i x, m !! i = Some x -> x = 0%Z).
Proof.
  intros Hb Hs. destruct (sum_values_votes m Hb) as [Hr [H1 H0]].
  assert (Hne : size m <> 0%nat <-> m <> ∅) by (rewrite map_size_empty_iff; tauto).
  unfold ensemble.
  remember (sum_values m) as k eqn:Ek. remember (size m) as n eqn:En.
  clear Ek En Hb.
  assert (Hk : k = 0%Z \/ k = 1%Z \/ k = 2%Z \/ k = 3%Z) by lia.
  destruct n as [|[|[|[|n]]]]; [| | | |lia];
    destruct Hk as [->|[->|[->| ->]]]; try (exfalso; lia);
    decide_left H1; decide_left H0; decide_left Hne;
    match goal with
    | |- context [risk_of ?q] =>
        let r := eval vm_compute in (risk_of q) in
        let c := eval vm_compute in (Qlt_bool (5 # 10) q) in
        let lo := eval vm_compute in (Qle_bool 0 q) in
        let hi := eval vm_compute in (Qle_bool q 1) in
        assert (HR : risk_of q = r) by (vm_compute; reflexivity);
        assert (HC : Qlt_bool (5 # 10) q = c) by (vm_compute; reflexivity);
        assert (HL : Qle_bool 0 q = lo) by (vm_compute; reflexivity);
        assert (HH : Qle_bool q 1 = hi) by (vm_compute; reflexivity);
        apply Qle_bool_iff in HL; apply Qle_bool_iff in HH;
        rewrite HR, HC
    end;
    (split; [split; assumption|]);
    clear H1 H0 Hne; intuition congruence.
Qed.

(** X12: in every verdict the fused score lies between 0 and 1; at most
    three detectors contribute, each with a vote of 0 or 1, and the native
    scores are reported for exactly the detectors that voted. *)
Theorem verdict_score_is_vote_share (self : engine) (now : clock) (record : dict)
    (v : verdict) :
  score_record self now record = Scored v ->
  (0 <= ensemble_score v <= 1)%Q
  /\ (size (individual_predictions v) <= 3)%nat
  /\ (forall name p, individual_predictions v !! name = Some p -> p = 0%Z \/ p = 1%Z)
  /\ dom (individual_scores v) = dom (individual_predictions v).
Proof.
  intros H. destruct (scored_inv self now record v H) as [[Hb [Hs Hd]] [He _]].
  cbn [fst snd] in Hb, Hs, Hd.
  split; [rewrite He; apply (ensemble_casework _ Hb Hs)|].
  split; [exact Hs|]. split; [exact Hb | exact Hd].
Qed.

Lemma verdict_score_is_vote_share_witness :
  (0 <= ensemble_score Scenarios.two_of_three_verdict <= 1)%Q.
Proof.
  refine (proj1 (verdict_score_is_vote_share Scenarios.two_of_three Samples.noon
                   (Samples.get_request 5) Scenarios.two_of_three_verdict _)).
  vm_compute. reflexivity.
Defined.

(** X13: the risk level of a verdict reads the votes: an anomaly (more
    than half of the detectors flag the record) is always HIGH or CRITICAL;
    the level is CRITICAL exactly when at least one detector voted and all
    flagged the record, and LOW exactly when none flagged it. *)
Theorem risk_level_reads_votes (self : engine) (now : clock) (record : dict)
    (v : verdict) :
  score_record self now record = Scored v ->
  (is_anomaly v = true -> risk_level v = HIGH \/ risk_level v = CRITICAL)
  /\ (risk_level v = CRITICAL <->
      individual_predictions v <> ∅
      /\ forall name p, individual_predictions v !! name = Some p -> p = 1%Z)
  /\ (risk_level v = LOW <->
      forall name p, individual_predictions v !! name = Some p -> p = 0%Z).
Proof.
  intros H. destruct (scored_inv self now record v H) as [[Hb [Hs _]] [_ [Hr Ha]]].
  cbn [fst snd] in Hb, Hs. rewrite Hr, Ha.
  apply (ensemble_casework _ Hb Hs).
Qed.

Lemma risk_level_reads_votes_witness :
  risk_level Scenarios.two_of_three_verdict = HIGH
  \/ risk_level Scenarios.two_of_three_verdict = CRITICAL.
Proof.
  refine (proj1 (risk_level_reads_votes Scenarios.two_of_three Samples.noon
                   (Samples.get_request 5) Scenarios.two_of_three_verdict _) _).
  - vm_compute. reflexivity.
  - reflexivity.
Defined.

(** X14: an engine whose only detector is an LOF model without a
    [predict] method flags every record it can prepare features for as a
    CRITICAL anomaly with fused score 1. *)
Theorem lof_without_predict_flags_all (self : engine) (now : clock) (record : dict)
    (m : model) (x : list pyval) :
  optimized_models self = {["lof_detector" := m]} ->
  predict m = None ->
  _prepare_feature_vector self record = Ok x ->
  scores_of (score_record self now record)
  = inl ({["lof_detector" := 1%Z]}, {["lof_detector" := (-1)%Q]}, 1%Q, CRITICAL, true).
Proof.
  intros Hm Hp Hx. unfold score_record, score_record_body.
  rewrite Hx. cbn [bind]. unfold score_with, score_lof. rewrite Hm.
  rewrite !lookup_singleton_ne by done. cbn [bind fst snd].
  rewrite lookup_singleton_eq, Hp. reflexivity.
Qed.

Lemma lof_without_predict_flags_all_witness :
  scores_of (score_record Scenarios.lof_only Samples.noon (Samples.get_request 5))
  = inl ({["lof_detector" := 1%Z]}, {["lof_detector" := (-1)%Q]}, 1%Q, CRITICAL, true).
Proof.
  apply (lof_without_predict_flags_all Scenarios.lof_only Samples.noon
           (Samples.get_request 5) Scenarios.lof_fitted
           [PInt 0; PInt 0; PInt 0; PInt 0; PInt 0; PInt 11; PInt 0; PInt 0; PInt 0]);
    reflexivity.
Defined.

End VerdictFacts.

(** ** realtime_ml_inference.py: what a poll leaves behind *)

Section PollFacts.
Import Inference.
Variable date_of : pyval -> Z.

Lemma newer_total (a b : dict) : newer date_of a b = false -> newer date_of b a = true.
Proof.
  unfold newer. destruct (a !! "@timestamp"), (b !! "@timestamp");
    try discriminate; try reflexivity.
  intros H. apply Z.leb_gt in H. apply Z.leb_le. lia.
Qed.

Lemma newer_trans (a b c : dict) :
  newer date_of a b = true -> newer date_of b c = true -> newer date_of a c = true.
Proof.
  unfold newer. destruct (a !! "@timestamp"), (b !! "@timestamp"), (c !! "@timestamp");
    try discriminate; try reflexivity.
  intros H1 H2. apply Z.leb_le in H1, H2. apply Z.leb_le. lia.
Qed.

Lemma insert_desc_in (r x : dict) (l : list dict) :
  In x (insert_desc date_of r l) <-> x = r \/ In x l.
Proof.
  induction l as [|y l IH]; simpl; [intuition congruence|].
  destruct (newer date_of r y); simpl; [intuition congruence|].
  rewrite IH. intuition congruence.
Qed.

Lemma sort_desc_in (x : dict) (l : list dict) : In x (sort_desc date_of l) <-> In x l.
Proof.
  induction l as [|r l IH]; simpl; [tauto|].
  rewrite insert_desc_in, IH. intuition congruence.
Qed.

Lemma insert_desc_sorted (r : dict) (l : list dict) :
  StronglySorted (fun a b => newer date_of a b = true) l ->
  StronglySorted (fun a b => newer date_of a b = true) (insert_desc date_of r l).
Proof.
  induction l as [|y l IH]; intros Hs; simpl; [repeat constructor|].
  apply StronglySorted_inv in Hs as [Hs Hy].
  destruct (newer date_of r y) eqn:E.
  - constructor; [by constructor|].
    constructor; [exact E|].
    eapply List.Forall_impl; [|exact Hy]. intros x Hx. by apply (newer_trans r y x).
  - constructor; [by apply IH|].
    rewrite List.Forall_forall. intros x Hx. apply insert_desc_in in Hx as [->|Hx].
    + by apply newer_total.
    + rewrite List.Forall_forall in Hy. by apply Hy.
Qed.

Lemma sort_desc_sorted (l : list dict) :
  StronglySorted (fun a b => newer date_of a b = true) (sort_desc date_of l).
Proof.
  induction l as [|r l IH]; simpl; [constructor | by apply insert_desc_sorted].
Qed.

(** The first hit is not older than any record the search matched. *)
Lemma es_search_head (store : list dict) (q : query) (h : dict) (rest : list dict) :
  es_search date_of store q = Ok (h :: rest) ->
  matches date_of q h = true
  /\ In h store
  /\ forall x, In x store -> matches date_of q x = true -> newer date_of h x = true.
Proof.
  unfold es_search. intros H. injection H as H.
  pose proof (sort_desc_sorted (List.filter (matches date_of q) store)) as Hs.
  destruct (sort_desc date_of (List.filter (matches date_of q) store)) as [|h' l] eqn:E.
  { destruct (size_limit q); discriminate. }
  destruct (size_limit q) as [|n]; [discriminate|]. simpl in H. injection H as -> _.
  assert (Hin : forall x, In x (h :: l) <-> In x store /\ matches date_of q x = true).
  { intros x. rewrite <- E, sort_desc_in, List.filter_In. reflexivity. }
  destruct (proj1 (Hin h) (or_introl eq_refl)) as [Hh Hm].
  split; [exact Hm|]. split; [exact Hh|].
  intros x Hx Hmx. apply StronglySorted_inv in Hs as [_ Hs].
  destruct (proj2 (Hin x) (conj Hx Hmx)) as [<-|Hl].
  - unfold newer. destruct (h !! "@timestamp"); [apply Z.leb_refl | reflexivity].
  - rewrite List.Forall_forall in Hs. by apply Hs.
Qed.

Lemma es_search_none (store : list dict) (q : query) :
  (forall x, In x store -> matches date_of q x = false) ->
  es_search date_of store q = Ok [].
Proof.
  intros H. unfold es_search.
  assert (E : List.filter (matches date_of q) store = []).
  { induction store as [|x l IH]; [reflexivity|]. simpl.
    rewrite (H x (or_introl eq_refl)). apply IH. intros y Hy. apply H. by right. }
  rewrite E. simpl. by rewrite firstn_nil.
Qed.

Lemma processed_idle (self : engine) (now : clock) (search : source) (n : nat) :
  forall st : monitor,
    search (build_query st) = Ok [] ->
    processed self now (repeat search n) st = [].
Proof.
  induction n as [|n IH]; intros st H; [reflexivity|].
  cbn [repeat processed]. rewrite H. simpl. apply IH.
  unfold cycle. rewrite H. exact H.
Qed.

(** X15: a poll scores at most the ten newest records above the watermark.
    When the newest of them is scored without error the watermark jumps to
    it, so however often the unchanged store is polled again, the records
    that were not among the ten hits are never scored. *)
Theorem unchanged_store_scored_once (self : engine) (now : clock) (store : list dict)
    (st : monitor) (hits : list dict) (n : nat) :
  well_formed (last_processed_timestamp st) ->
  Forall (fun r => exists ts, r !! "@timestamp" = Some ts /\ truthy ts = true) store ->
  es_search date_of store (build_query st) = Ok hits ->
  (forall h rest, hits = h :: rest -> succeeded self now h = true) ->
  (length hits <= 10)%nat
  /\ processed self now
       (es_search date_of store :: repeat (es_search date_of store) n) st
     = rev hits.
Proof.
  intros Hw Hstore Hhits Hhead. split.
  { unfold es_search in Hhits. injection Hhits as <-. rewrite length_firstn.
    cbn [build_query size_limit]. lia. }
  cbn [processed]. rewrite Hhits.
  rewrite processed_idle; [by rewrite app_nil_r|].
  destruct hits as [|h rest].
  { unfold cycle. rewrite Hhits. exact Hhits. }
  destruct (es_search_head store _ h rest Hhits) as [Hm [Hin Hnew]].
  rewrite List.Forall_forall in Hstore.
  destruct (Hstore h Hin) as [ts [Ets Hts]].
  assert (Hwm : last_processed_timestamp (cycle self now st (es_search date_of store)) = ts).
  { rewrite cycle_watermark, Hhits, fold_next_find, rev_involutive.
    cbn [List.find]. rewrite (Hhead h rest eq_refl).
    unfold get. by rewrite Ets. }
  apply es_search_none. intros x Hx.
  unfold build_query. rewrite Hwm, Hts.
  destruct (Hstore x Hx) as [tx [Etx _]].
  unfold matches. cbn [range_gt]. rewrite Etx. apply Z.ltb_ge.
  destruct (matches date_of (build_query st) x) eqn:Hmx.
  - specialize (Hnew x Hx Hmx). unfold newer in Hnew. rewrite Ets, Etx in Hnew.
    by apply Z.leb_le.
  - unfold matches, build_query in Hmx, Hm. rewrite Etx in Hmx. rewrite Ets in Hm.
    destruct (truthy (last_processed_timestamp st)); cbn [range_gt] in Hmx, Hm;
      [|discriminate].
    apply Z.ltb_ge in Hmx. apply Z.ltb_lt in Hm. lia.
Qed.

End PollFacts.

Lemma unchanged_store_scored_once_witness :
  Inference.processed Samples.forest_only Samples.noon
    (Inference.es_search Samples.epoch Samples.store_one
     :: repeat (Inference.es_search Samples.epoch Samples.store_one) 2)
    Inference.initial
  = rev (map Samples.get_request [7; 5; 3]%Z).
Proof.
  refine (proj2 (unchanged_store_scored_once Samples.epoch Samples.forest_only
                   Samples.noon Samples.store_one Inference.initial
                   (map Samples.get_request [7; 5; 3]%Z) 2 _ _ _ _)).
  - left. reflexivity.
  - repeat constructor; eexists; (split; [reflexivity | reflexivity]).
  - vm_compute. reflexivity.
  - intros h rest E. injection E as <- _. vm_compute. reflexivity.
Defined.


(** * The monitor's verdict, its event stream, and the trainer's ensemble *)

Section MonitorVerdictFacts.
Import Monitor MonitorInputs.

Lemma vote_share_facts (v t : nat) :
  (v <= t)%nat ->
  let s := if (0 <? t)%nat
           then (inject_Z (Z.of_nat v) / inject_Z (Z.of_nat t))%Q else 0%Q in
  (0 <= s <= 1)%Q
  /\ ((t <? 2 * v)%nat = true <-> (1 # 2 < s)%Q)
  /\ ((t = 2 * v)%nat /\ (0 < t)%nat <-> (s == 1 # 2)%Q).
Proof.
  intros Hv s. subst s.
  destruct t as [|t].
  - simpl. assert (v = 0)%nat as -> by lia. simpl. split; [split; lra|].
    split; [split; [discriminate|]|split; [lia|]].
    + intros H. exfalso. revert H. unfold Qlt. simpl. lia.
    + intros H. exfalso. revert H. unfold Qeq. simpl. lia.
  - change (0 <? S t)%nat with true. cbv iota.
    rewrite Nat.ltb_lt.
    unfold Qdiv, Qle, Qlt, Qeq, Qmult, Qinv, inject_Z.
    rewrite Nat2Z.inj_succ, <- Zpos_P_of_succ_nat.
    cbn [Qnum Qden].
    lia.
Qed.

Lemma risk_of_half (s : Q) :
  ((1 # 2 < s)%Q -> (s <= 1)%Q -> risk_of s = HIGH \/ risk_of s = CRITICAL)
  /\ ((s == 1 # 2)%Q -> risk_of s = HIGH).
Proof.
  unfold risk_of. split.
  - intros H1 H2.
    destruct (Qle_bool (75 # 100) s) eqn:E1; [by right|].
    destruct (Qle_bool (5 # 10) s) eqn:E2; [by left|].
    exfalso. apply Qle_bool_false in E2. lra.
  - intros H.
    destruct (Qle_bool (75 # 100) s) eqn:E1.
    { apply Qle_bool_iff in E1. lra. }
    destruct (Qle_bool (5 # 10) s) eqn:E2; [done|].
    apply Qle_bool_false in E2. lra.
Qed.

(** X16. The verdict of [predict_anomaly] follows the share of detectors
    that flag the event: the score lies between 0 and 1, the event is an
    anomaly exactly when the share is above one half, an anomaly is always
    HIGH or CRITICAL, and at exactly one half the level is HIGH while the
    event is not an anomaly. *)
Theorem anomaly_is_strict_majority (self : engine) (now : clock) (event : dict) :
  let p := predict_anomaly self now event in
  (0 <= ensemble_score p <= 1)%Q
  /\ (is_anomaly p = true <-> (1 # 2 < ensemble_score p)%Q)
  /\ (is_anomaly p = true -> risk_level p = HIGH \/ risk_level p = CRITICAL)
  /\ ((ensemble_score p == 1 # 2)%Q -> risk_level p = HIGH /\ is_anomaly p = false).
Proof.
  intros p. subst p. unfold predict_anomaly, predict_anomaly_body.
  cbn [catch is_anomaly ensemble_score risk_level].
  set (predictions := fst <$> run_models self (engineer_features self now event)).
  pose proof (map_size_filter (fun kv : string * Z => snd kv = (-1)%Z) predictions) as Hv.
  fold (anomaly_votes predictions) in Hv.
  destruct (vote_share_facts _ _ Hv) as (Hb & Hm & Ht).
  cbv zeta in Hb, Hm, Ht.
  set (s := if (0 <? size predictions)%nat then _ else _) in *.
  destruct (risk_of_half s) as [Hr1 Hr2].
  split; [exact Hb|]. split; [exact Hm|]. split.
  - intros Ha. apply Hr1; [by apply Hm | apply Hb].
  - intros Hs. split; [by apply Hr2|].
    apply Ht in Hs. destruct Hs as [Hs _].
    apply Nat.ltb_ge. lia.
Qed.

Lemma engineer_features_same (self : engine) (now : clock) (event event' : dict) :
  same_inputs event event' ->
  engineer_features self now event = engineer_features self now event'.
Proof.
  intros H. unfold same_inputs, read_fields in H.
  apply Forall_cons_1 in H as [H1 H].
  apply Forall_cons_1 in H as [H2 H].
  apply Forall_cons_1 in H as [H3 _].
  unfold engineer_features, engineer_features_body, get.
  by rewrite H1, H2, H3.
Qed.

(** X17. The verdict reads three fields of the event only: two events
    that agree on the timestamp, the user agent and the request method get
    the same prediction, whatever their other fields hold. *)
Theorem verdict_reads_three_fields (self : engine) (now : clock) (event event' : dict) :
  same_inputs event event' ->
  predict_anomaly self now event = predict_anomaly self now event'.
Proof.
  intros H. unfold predict_anomaly, predict_anomaly_body.
  by rewrite (engineer_features_same self now event event' H).
Qed.

(** X18. An event whose user agent is present but not a string (a JSON
    null, a number) is scored as the all-zero vector of thirteen features,
    with or without a scaler. *)
Theorem non_string_user_agent_zero_vector (self : engine) (now : clock)
    (event : dict) (v : pyval) :
  event !! "http_user_agent" = Some v -> is_str v = false ->
  engineer_features self now event = repeat 0%Q 13.
Proof.
  intros Hv Hs. unfold engineer_features, engineer_features_body, get.
  rewrite Hv.
  assert (Hl : exists e, Alerting.py_lower v = Raise e).
  { destruct v; try discriminate; eexists; reflexivity. }
  destruct Hl as [e ->].
  destruct (event !! "@timestamp") as [ts|]; cbn [bind catch];
    [destruct (to_datetime self ts) as [[[h d]|]|e']|]; reflexivity.
Qed.

End MonitorVerdictFacts.

Lemma verdict_reads_three_fields_witness :
  Monitor.predict_anomaly Samples.half_failing Samples.noon Streams.plain
  = Monitor.predict_anomaly Samples.half_failing Samples.noon Streams.plain_admin.
Proof.
  apply verdict_reads_three_fields.
  repeat constructor.
Defined.

Lemma non_string_user_agent_zero_vector_witness :
  Monitor.engineer_features Samples.all_quiet Samples.noon Streams.null_agent
  = repeat 0%Q 13.
Proof.
  apply (non_string_user_agent_zero_vector Samples.all_quiet Samples.noon
           Streams.null_agent PNone); reflexivity.
Defined.

Section StreamFacts.
Import Monitor Stream.
Variables (self : engine) (now : clock) (timer : nat -> Q).

Lemma string_compare_trans (s t u : string) :
  String.compare s t <> Gt -> String.compare t u <> Gt -> String.compare s u <> Gt.
Proof.
  revert t u. induction s as [|a s IH]; intros [|b t] [|c u]; simpl; try congruence.
  unfold Ascii.compare.
  destruct (N.compare_spec (N_of_ascii a) (N_of_ascii b)) as [E1|E1|E1];
    destruct (N.compare_spec (N_of_ascii b) (N_of_ascii c)) as [E2|E2|E2];
    destruct (N.compare_spec (N_of_ascii a) (N_of_ascii c)) as [E3|E3|E3];
    try congruence; try lia.
  apply IH.
Qed.

Lemma string_leb_trans (s t u : string) :
  String.leb s t = true -> String.leb t u = true -> String.leb s u = true.
Proof.
  unfold String.leb. intros H1 H2.
  pose proof (string_compare_trans s t u) as H.
  destruct (String.compare s t); try discriminate;
    destruct (String.compare t u); try discriminate;
    destruct (String.compare s u); try reflexivity; exfalso; apply H; congruence.
Qed.

(** An event that is not newer than the last one processed changes nothing. *)
Lemma process_events_seen (events : list dict) (st : monitor) :
  truthy (last_processed (counters st)) = true ->
  Forall (fun e => py_le (stamp e) (last_processed (counters st)) = Ok true) events ->
  process_events self now timer events st = st.
Proof.
  intros Ht H. induction H as [|e rest He _ IH]; [reflexivity|].
  cbn [process_events]. unfold process_event. fold (stamp e).
  rewrite Ht, He. cbn [bind]. exact IH.
Qed.

Lemma anomaly_is_high_risk (event : dict) :
  is_anomaly (predict_anomaly self now event) = true ->
  severity_eqb (risk_level (predict_anomaly self now event)) HIGH
  || severity_eqb (risk_level (predict_anomaly self now event)) CRITICAL = true.
Proof.
  unfold predict_anomaly, predict_anomaly_body.
  cbn [catch is_anomaly ensemble_score risk_level].
  set (predictions := fst <$> run_models self (engineer_features self now event)).
  pose proof (map_size_filter (fun kv : string * Z => snd kv = (-1)%Z) predictions) as Hv.
  fold (anomaly_votes predictions) in Hv.
  destruct (vote_share_facts _ _ Hv) as (Hb & Hm & _).
  cbv zeta in Hb, Hm.
  set (s := if (0 <? size predictions)%nat then _ else _) in *.
  intros Ha. destruct (proj1 (risk_of_half s)) as [-> | ->];
    [by apply Hm | apply Hb | reflexivity | reflexivity].
Qed.

Lemma process_event_consistent (st st' : monitor) (event : dict) :
  consistent st -> process_event self now timer st event = Ok st' -> consistent st'.
Proof.
  intros (H1 & H2 & H3) H. unfold process_event in H.
  pose proof (anomaly_is_high_risk event) as Hr.
  set (p := predict_anomaly self now event) in *. clearbody p.
  set (t := timer _) in *. clearbody t.
  destruct (if truthy (last_processed (counters st)) then _ else _) as [[|]|e];
    cbn [bind] in H; [injection H as <-; by repeat split| |discriminate].
  injection H as <-. unfold consistent. cbn [counters performance_window
    high_risk_events anomalies_detected events_processed].
  assert (Hw : (length (if (max_window_size <? length (performance_window st ++ [t]))%nat
                        then tl (performance_window st ++ [t])
                        else performance_window st ++ [t]) <= max_window_size)%nat).
  { destruct (max_window_size <? _)%nat eqn:E; [|by apply Nat.ltb_ge in E].
    pose proof (length_app (performance_window st) [t]) as Hl.
    destruct (performance_window st ++ [t]); cbn [tl length] in *; lia. }
  destruct (is_anomaly p).
  - rewrite Hr by reflexivity. cbn [andb]. split; [lia|]. split; [lia|exact Hw].
  - cbn [andb]. split; [lia|]. split; [lia|exact Hw].
Qed.

Lemma process_events_consistent (events : list dict) (st : monitor) :
  consistent st -> consistent (process_events self now timer events st).
Proof.
  revert st. induction events as [|e rest IH]; intros st H; [exact H|].
  cbn [process_events].
  destruct (process_event self now timer st e) as [st'|ex] eqn:E.
  - apply IH. by apply (process_event_consistent st st' e).
  - exact H.
Qed.

(** X19. Whatever the polls return, the counters of the stream stay
    consistent: every anomaly is also counted as a high-risk event, the
    anomalies are at most the events processed, and the window of
    prediction times holds at most a hundred entries. *)
Theorem stream_counters_consistent (polls : list (list dict)) (st : monitor) :
  consistent st -> consistent (process_event_stream self now timer polls st).
Proof.
  unfold process_event_stream. revert st.
  induction polls as [|events polls IH]; intros st H; [exact H|].
  cbn [fold_left]. apply IH. by apply process_events_consistent.
Qed.

(** After an event with a string timestamp went through the loop body,
    every event that is not after it counts as processed. *)
Lemma process_event_marks (st st' : monitor) (e : dict) :
  truthy (stamp e) = true ->
  process_event self now timer st e = Ok st' ->
  truthy (last_processed (counters st')) = true
  /\ (forall r, not_after r e ->
                py_le (stamp r) (last_processed (counters st')) = Ok true)
  /\ (events_processed (counters st') <= S (events_processed (counters st)))%nat.
Proof.
  intros Hte H. unfold process_event in H. fold (stamp e) in H.
  destruct (truthy (last_processed (counters st))) eqn:Hl.
  - destruct (py_le (stamp e) (last_processed (counters st))) as [[|]|ex] eqn:Hle;
      cbn [bind] in H; [| |discriminate]; injection H as <-.
    + split; [exact Hl|]. split; [|lia].
      intros r (s & t & Hr & He & Hst).
      rewrite He in Hle. rewrite Hr.
      destruct (last_processed (counters st)) as [| | | |l] eqn:El;
        try discriminate Hle.
      cbn in Hle |- *. injection Hle as Hle.
      by rewrite (string_leb_trans s t l).
    + cbn [counters last_processed events_processed].
      split; [exact Hte|]. split; [|lia].
      intros r (s & t & -> & -> & Hst). cbn. by rewrite Hst.
  - cbn [bind] in H. injection H as <-.
    cbn [counters last_processed events_processed].
    split; [exact Hte|]. split; [|lia].
    intros r (s & t & -> & -> & Hst). cbn. by rewrite Hst.
Qed.

(** X20. Of a batch that arrives newest first, the loop scores the first
    event at most: every later event of the batch is skipped as already
    processed, so the batch counts one more event at most. *)
Theorem newest_first_batch_scores_one (events : list dict) (st : monitor) :
  newest_first events ->
  process_events self now timer events st
  = process_events self now timer (firstn 1 events) st
  /\ (events_processed (counters (process_events self now timer events st))
      <= S (events_processed (counters st)))%nat.
Proof.
  intros [Hs Ht]. destruct events as [|e rest]; [split; [reflexivity|simpl; lia]|].
  change (firstn 1 (e :: rest)) with [e].
  cbn [process_events].
  apply StronglySorted_inv in Hs as [_ Hrest].
  apply Forall_cons_1 in Ht as [Hte _].
  destruct (process_event self now timer st e) as [st'|ex] eqn:E;
    [|split; [reflexivity|cbn; lia]].
  destruct (process_event_marks st st' e Hte E) as (Hl & Hle & Hn).
  rewrite process_events_seen; [by split|exact Hl|].
  eapply List.Forall_impl; [|exact Hrest]. exact Hle.
Qed.

(** X21. The events skipped in a batch are never scored later either:
    once a newest-first batch went through the loop, any events that are
    not after its first one leave the state as it is, in this poll or a
    later one. *)
Theorem seen_batch_never_scored (e : dict) (rest later : list dict) (st : monitor) :
  newest_first (e :: rest) ->
  Forall (fun r => not_after r e) later ->
  comparable (last_processed (counters st)) = true ->
  process_events self now timer later (process_events self now timer (e :: rest) st)
  = process_events self now timer (e :: rest) st.
Proof.
  intros [Hs Ht] Hlater Hc.
  destruct later as [|r later']; [reflexivity|].
  set (later := r :: later') in *.
  assert (He : exists t, stamp e = PStr t).
  { apply Forall_cons_1 in Hlater as [(s & t & _ & He & _) _]. by exists t. }
  destruct He as [t He].
  apply StronglySorted_inv in Hs as [_ Hrest].
  apply Forall_cons_1 in Ht as [Hte _].
  cbn [process_events].
  destruct (process_event self now timer st e) as [st'|ex] eqn:E.
  - destruct (process_event_marks st st' e Hte E) as (Hl & Hle & _).
    rewrite (process_events_seen rest st'); [|exact Hl|].
    + apply process_events_seen; [exact Hl|].
      eapply List.Forall_impl; [|exact Hlater]. exact Hle.
    + eapply List.Forall_impl; [|exact Hrest]. exact Hle.
  - exfalso. unfold process_event in E. fold (stamp e) in E. rewrite He in E.
    destruct (last_processed (counters st)) as [|b|z|q|l].
    + cbn in E. discriminate.
    + unfold comparable in Hc. apply negb_true_iff in Hc. rewrite Hc in E.
      cbn [bind] in E. discriminate.
    + unfold comparable in Hc. apply negb_true_iff in Hc. rewrite Hc in E.
      cbn [bind] in E. discriminate.
    + unfold comparable in Hc. apply negb_true_iff in Hc. rewrite Hc in E.
      cbn [bind] in E. discriminate.
    + destruct (truthy (PStr l)); cbn [bind py_le] in E;
        [destruct (String.leb t l)|]; discriminate.
Qed.

End StreamFacts.

Lemma stream_counters_consistent_witness :
  Stream.consistent
    (Stream.process_event_stream Samples.half_failing Samples.noon
       Streams.millisecond [Streams.minute_batch; Streams.minute_batch]
       Stream.initial).
Proof.
  apply stream_counters_consistent.
  repeat split; cbn; lia.
Defined.

Lemma newest_first_batch_scores_one_witness :
  Stream.process_events Samples.half_failing Samples.noon Streams.millisecond
    Streams.minute_batch Stream.initial
  = Stream.process_events Samples.half_failing Samples.noon Streams.millisecond
      (firstn 1 Streams.minute_batch) Stream.initial
  /\ (Stream.events_processed
        (Stream.counters
           (Stream.process_events Samples.half_failing Samples.noon
              Streams.millisecond Streams.minute_batch Stream.initial))
      <= S (Stream.events_processed (Stream.counters Stream.initial)))%nat.
Proof.
  apply newest_first_batch_scores_one.
  split.
  - repeat constructor.
    exists "2025-10-05T12:00:01", "2025-10-05T12:00:02".
    repeat split; reflexivity.
  - repeat constructor.
Defined.

Lemma seen_batch_never_scored_witness :
  Stream.process_events Samples.half_failing Samples.noon Streams.millisecond
    (tl Streams.minute_batch)
    (Stream.process_events Samples.half_failing Samples.noon Streams.millisecond
       Streams.minute_batch Stream.initial)
  = Stream.process_events Samples.half_failing Samples.noon Streams.millisecond
      Streams.minute_batch Stream.initial.
Proof.
  apply (seen_batch_never_scored Samples.half_failing Samples.noon
           Streams.millisecond (Streams.stamped "2025-10-05T12:00:02")
           [Streams.stamped "2025-10-05T12:00:01"]
           [Streams.stamped "2025-10-05T12:00:01"] Stream.initial).
  - split.
    + repeat constructor.
      exists "2025-10-05T12:00:01", "2025-10-05T12:00:02".
      repeat split; reflexivity.
    + repeat constructor.
  - repeat constructor.
    exists "2025-10-05T12:00:01", "2025-10-05T12:00:02".
    repeat split; reflexivity.
  - reflexivity.
Defined.

Section EnsembleScoreFacts.
Import Detector EnsembleRange.
Local Open Scope R_scope.












End EnsembleScoreFacts.

